(** * project_marmiton.py: a shallow embedding of the recipe scraper

    The program fetches three listing pages of marmiton.org, follows every
    recipe-card link, extracts six fields per recipe page with BeautifulSoup,
    collects the rows in pandas DataFrames and writes one CSV file.

    What is modelled and how:
    - Python [str] is a list of Unicode code points ([list N]), so that
      [str.strip] and [str.split] use CPython's own whitespace table;
    - a parsed page is a forest of nodes; the HTML parser itself (html5lib)
      is outside the model, pages are given as trees;
    - the web is a function from URLs to pages, constant during one run;
      [None] stands for a request that raises;
    - exceptions are an error result threaded through every call;
    - a DataFrame is its column labels, its index and its rows;
    - the file system is a finite map from paths to written tables. *)

From Stdlib Require Import NArith List String Ascii Lia Bool.
From stdpp Require Import base option list gmap fin_maps countable.

Set Warnings "-register-all".

Open Scope N_scope.
Open Scope list_scope.

(** ** Python strings *)

Module Py.

Abbreviation str := (list N).

(** An ASCII literal as a Python string. *)
Definition lit (s : string) : str :=
  List.map N_of_ascii (list_ascii_of_string s).

(** [Py_UNICODE_ISSPACE]: the code points [str.isspace], [str.strip],
    [str.split] and the regular expression class [\s] treat as
    whitespace. *)
Definition isspace (c : N) : bool :=
  ((9 <=? c) && (c <=? 13)) || ((28 <=? c) && (c <=? 32))
  || (c =? 133) || (c =? 160) || (c =? 5760)
  || ((8192 <=? c) && (c <=? 8202))
  || (c =? 8232) || (c =? 8233) || (c =? 8239) || (c =? 8287)
  || (c =? 12288).

Fixpoint lstrip (s : str) : str :=
  match s with
  | [] => []
  | c :: s' => if isspace c then lstrip s' else s
  end.

Definition rstrip (s : str) : str := rev (lstrip (rev s)).

(** [s.strip()] *)
Definition strip (s : str) : str := rstrip (lstrip s).

(** [s.split()] with no separator: the maximal runs of non-whitespace
    code points, in order.  [cur] is the run being read, reversed. *)
Fixpoint split_from (cur : str) (s : str) : list str :=
  match s with
  | [] => match cur with [] => [] | _ => [rev cur] end
  | c :: s' =>
      if isspace c then
        match cur with
        | [] => split_from [] s'
        | _ => rev cur :: split_from [] s'
        end
      else split_from (c :: cur) s'
  end.

Definition split (s : str) : list str := split_from [] s.

(** [sep.join(l)] *)
Fixpoint join (sep : str) (l : list str) : str :=
  match l with
  | [] => []
  | [x] => x
  | x :: l' => x ++ sep ++ join sep l'
  end.

(** The exceptions this program can raise. *)
Inductive exn :=
| AttributeError   (* attribute access on None *)
| IndexError       (* list index out of range *)
| KeyError         (* tag[...] on a missing attribute *)
| ValueError       (* pd.concat of no objects *)
| RequestException (* requests.get failed *).

Inductive result (A : Type) :=
| Ok (a : A)
| Raise (e : exn).
Arguments Ok {A} a.
Arguments Raise {A} e.

Definition bind {A B} (r : result A) (k : A -> result B) : result B :=
  match r with
  | Ok a => k a
  | Raise e => Raise e
  end.

Definition is_Ok {A} (r : result A) : bool :=
  match r with Ok _ => true | Raise _ => false end.

End Py.

Import Py.

#[global] Instance result_bind : MBind result :=
  fun A B k r => Py.bind r k.
#[global] Instance result_ret : MRet result := @Py.Ok.
#[global] Instance result_fmap : FMap result :=
  fun A B f r => Py.bind r (fun a => Ok (f a)).

(** ** BeautifulSoup *)

Module Bs4.

(** A parsed document.  [NavigableString] is page text, [Comment] stands
    for the string kinds that [.text] leaves out. *)
Inductive node :=
| NavigableString (s : str)
| Comment (s : str)
| Tag (name : str) (attrs : gmap str str) (contents : list node).

(** [tag.descendants]: every node below [n], in document order. *)
Fixpoint descendants (n : node) : list node :=
  match n with
  | Tag _ _ cs =>
      (fix go (l : list node) : list node :=
         match l with
         | [] => []
         | c :: l' => c :: descendants c ++ go l'
         end) cs
  | _ => []
  end.

(** The [BeautifulSoup] object: the top-level nodes of the page. *)
Abbreviation soup := (list node).

Fixpoint soup_descendants (s : soup) : list node :=
  match s with
  | [] => []
  | c :: s' => c :: descendants c ++ soup_descendants s'
  end.

(** A node found by a search, together with [next_elements]: the nodes
    that come after it in document order (its own descendants first). *)
Record element := Element { el : node; next_elements : list node }.

Fixpoint positions (l : list node) : list element :=
  match l with
  | [] => []
  | n :: l' => Element n l' :: positions l'
  end.

(** [tag.text]: the page text below the tag, concatenated. *)
Definition text (e : element) : str :=
  List.flat_map
    (fun d => match d with NavigableString s => s | _ => [] end)
    (descendants (el e)).

(** [tag.get(key)] *)
Definition get (e : element) (key : str) : option str :=
  match el e with
  | Tag _ attrs _ => attrs !! key
  | _ => None
  end.

(** [tag[key]] *)
Definition getitem (e : element) (key : str) : result str :=
  match get e key with
  | Some v => Ok v
  | None => Raise KeyError
  end.

(** What a search compares an attribute with: a string, or [True]. *)
Inductive criterion :=
| Is (s : str)
| Present.

(** [SoupStrainer._matches] on a single string value. [None] is a missing
    attribute: it matches only a falsy criterion. *)
Definition matches (markup : option str) (against : criterion) : bool :=
  match against, markup with
  | Present, Some _ => true
  | Present, None => false
  | Is s, Some v => bool_decide (v = s)
  | Is s, None => bool_decide (s = [])
  end.

(** [SoupStrainer._matches] on the value of a multi-valued attribute, which
    the tree builder has split at whitespace: some item matches, or the
    items joined by one space do. *)
Definition matches_list (markup : list str) (against : criterion) : bool :=
  existsb (fun item => matches (Some item) against) markup
  || matches (Some (join (lit " ") markup)) against.

(** The attribute as the tree builder stores it; [class] is multi-valued
    on every tag, [href] and [data-name] are plain strings. *)
Definition matches_attr (attrs : gmap str str) (key : str)
    (against : criterion) : bool :=
  if bool_decide (key = lit "class") then
    match attrs !! key with
    | Some v => matches_list (split v) against
    | None => matches None against
    end
  else matches (attrs !! key) against.

(** The arguments of [find], [find_all] and [find_next]: a tag name and
    attribute criteria ([class_=c] is the criterion [Is c] on [class]). *)
Record strainer := Strainer { s_name : str; s_attrs : list (str * criterion) }.

(** [SoupStrainer.search_tag]; html5lib-built tags carry no prefix. *)
Definition search_tag (st : strainer) (n : node) : bool :=
  match n with
  | Tag name attrs _ =>
      bool_decide (name = s_name st)
      && forallb (fun ac => matches_attr attrs (fst ac) (snd ac)) (s_attrs st)
  | _ => false
  end.

Definition find_all_in (st : strainer) (l : list node) : list element :=
  List.filter (fun e => search_tag st (el e)) (positions l).

(** [soup.find_all(name, **attrs)] *)
Definition find_all (s : soup) (st : strainer) : list element :=
  find_all_in st (soup_descendants s).

(** [soup.find(name, **attrs)] *)
Definition find (s : soup) (st : strainer) : option element :=
  head (find_all s st).

(** [tag.find_next(name, **attrs)] *)
Definition find_next (e : element) (st : strainer) : option element :=
  head (find_all_in st (next_elements e)).

(** [x.text] where [x] is the result of a search, possibly [None]. *)
Definition text_of (o : option element) : result str :=
  match o with
  | Some e => Ok (text e)
  | None => Raise AttributeError
  end.

(** [x.find_next(...)] where [x] is the result of a search. *)
Definition find_next_of (o : option element) (st : strainer)
    : result (option element) :=
  match o with
  | Some e => Ok (find_next e st)
  | None => Raise AttributeError
  end.

End Bs4.

Import Bs4.

(** ** pandas *)

Module Pd.

(** One entry of [recipes_info]: the dict literal built per recipe, its
    keys as fields.  [Recipe_Type] is what [recipe_type] returned and [URL]
    the link as extracted, either of which can be [None]. *)
Record record := Record_ {
  Recipe_Type : option str;
  Recipe_Name : str;
  Rating : str;
  Comments : str;
  Difficulty : str;
  Timer : str;
  Ingredients : gmap str str;
  URL : option str
}.

(** The keys of the dict literal, in the order they are written. *)
Definition record_keys : list str :=
  [lit "Recipe Type"; lit "Recipe Name"; lit "Rating"; lit "Comments";
   lit "Difficulty"; lit "Timer"; lit "Ingredients"; lit "URL"].

Record DataFrame := Frame {
  columns : list str;
  index : list nat;
  rows : list record
}.

(** [pd.DataFrame(l)] for a list of dicts: the columns are the keys met,
    in order of first appearance, so an empty list gives no column. *)
Definition DataFrame_of (l : list record) : DataFrame :=
  {| columns := match l with [] => [] | _ :: _ => record_keys end;
     index := seq 0 (length l);
     rows := l |}.

(** The union of two column indexes, unsorted: the labels of the first,
    then the new labels of the second. *)
Definition union_columns (a b : list str) : list str :=
  a ++ List.filter (fun c => negb (bool_decide (c ∈ a))) b.

(** [pd.concat(dfs, ignore_index=True)]: rows one frame after the other,
    a fresh range index, the union of the columns. *)
Definition concat (dfs : list DataFrame) : result DataFrame :=
  match dfs with
  | [] => Raise ValueError
  | _ :: _ =>
      let all_rows := List.flat_map rows dfs in
      Ok {| columns := fold_left union_columns (List.map columns dfs) [];
            index := seq 0 (length all_rows);
            rows := all_rows |}
  end.

(** A written CSV file, as a table: the header and one record per row,
    each record being the index label and the cells of the row.  How a
    record is laid out as text (quoting, the line breaks a cell may hold)
    is not modelled. *)
Record csv := Csv {
  header : list str;
  records : list (nat * record)
}.

(** [df.to_csv(path)] with the default [index=True] and [mode='w']: the
    index column has an empty label, the file is created or truncated. *)
Definition to_csv (df : DataFrame) (path : str) (fs : gmap str csv)
    : gmap str csv :=
  <[ path := {| header := [] :: columns df;
                records := combine (index df) (rows df) |} ]> fs.

End Pd.

Import Pd.

(** ** The program *)

(** The site during one run: the page served at each URL, [None] when the
    request raises. *)
Abbreviation web := (str -> option soup).

(** [BeautifulSoup(requests.get(url).text, "html5lib")]; a [None] URL is
    refused by [requests]. *)
Definition fetch (w : web) (url : option str) : result soup :=
  match url with
  | Some u =>
      match w u with
      | Some page => Ok page
      | None => Raise RequestException
      end
  | None => Raise RequestException
  end.

Definition recipe_card_link : strainer :=
  Strainer (lit "a") [(lit "class", Is (lit "recipe-card-link"))].

Definition scrape_recipe_links (w : web) (url : option str)
    : result (list (option str)) :=
  soup ← fetch w url;
  let recipe_links := find_all soup recipe_card_link in
  Ok (List.map (fun link => get link (lit "href")) recipe_links).

Definition url_entree : str :=
  lit "https://www.marmiton.org/recettes/top-internautes-entree.aspx".
Definition url_plat : str :=
  lit "https://www.marmiton.org/recettes/top-internautes-plat-principal.aspx".
Definition url_dessert : str :=
  lit "https://www.marmiton.org/recettes/top-internautes-dessert.aspx".

(** Falling off the end of the function returns [None]. *)
Definition recipe_type (url : str) : option str :=
  if bool_decide (url = url_entree) then Some (lit "entree")
  else if bool_decide (url = url_plat) then Some (lit "plat")
  else if bool_decide (url = url_dessert) then Some (lit "dessert")
  else None.

Definition h1 : strainer := Strainer (lit "h1") [].
Definition rating_text : strainer :=
  Strainer (lit "span") [(lit "class", Is (lit "recipe-header__rating-text"))].
Definition icon_comment : strainer :=
  Strainer (lit "i") [(lit "class", Is (lit "icon icon-icon_comment"))].
Definition reviews_anchor : strainer :=
  Strainer (lit "a") [(lit "href", Is (lit "#topReviewsTitle"))].
Definition icon_difficulty : strainer :=
  Strainer (lit "i") [(lit "class", Is (lit "icon icon-difficulty"))].
Definition icon_timer : strainer :=
  Strainer (lit "i") [(lit "class", Is (lit "icon icon-timer1"))].
Definition span : strainer := Strainer (lit "span") [].
Definition card_ingredient : strainer :=
  Strainer (lit "div")
    [(lit "class", Is (lit "card-ingredient")); (lit "data-name", Present)].
Definition span_count : strainer :=
  Strainer (lit "span") [(lit "class", Is (lit "count"))].

(** The loop over [ingredient_tags], filling [ingredients_dict]. *)
Fixpoint ingredients_loop (tags : list element) (ingredients_dict : gmap str str)
    : result (gmap str str) :=
  match tags with
  | [] => Ok ingredients_dict
  | tag :: tags' =>
      ingredient_name ← getitem tag (lit "data-name");
      let quantity_tag := find_next tag span_count in
      quantity_text ← text_of quantity_tag;
      let ingredient_quantity := strip quantity_text in
      ingredients_loop tags' (<[ ingredient_name := ingredient_quantity ]> ingredients_dict)
  end.

(** The tuple [scrape_recipe_data] returns. *)
Record recipe_data := Recipe_data {
  recipe_name : str;
  recipe_rate : str;
  recipe_comments : str;
  recipe_difficulty : str;
  recipe_timer : str;
  ingredients_dict : gmap str str
}.

Definition extract (soup : soup) : result recipe_data :=
  name_text ← text_of (find soup h1);
  let recipe_name := strip name_text in
  rate_text ← text_of (find soup rating_text);
  let recipe_rate := strip rate_text in
  let comments_tag := find soup icon_comment in
  comments_anchor ← find_next_of comments_tag reviews_anchor;
  comments_text ← text_of comments_anchor;
  let recipe_comments := strip comments_text in
  let difficulty_tag := find soup icon_difficulty in
  difficulty_span ← find_next_of difficulty_tag span;
  difficulty_text ← text_of difficulty_span;
  let recipe_difficulty := strip difficulty_text in
  let timer_tag := find soup icon_timer in
  timer_span ← find_next_of timer_tag span;
  timer_text ← text_of timer_span;
  let recipe_timer := strip timer_text in
  let ingredient_tags := find_all soup card_ingredient in
  ingredients_dict ← ingredients_loop ingredient_tags ∅;
  Ok (Recipe_data recipe_name recipe_rate recipe_comments recipe_difficulty
        recipe_timer ingredients_dict).

Definition scrape_recipe_data (w : web) (url : option str) : result recipe_data :=
  soup ← fetch w url;
  extract soup.

(** [l[0]] *)
Definition first {A} (l : list A) : result A :=
  match l with
  | x :: _ => Ok x
  | [] => Raise IndexError
  end.

(** The loop over [urls], appending to [recipes_info]. *)
Fixpoint recipes_loop (w : web) (urls : list (option str))
    (recipe_type : option str) (recipes_info : list record)
    : result (list record) :=
  match urls with
  | [] => Ok recipes_info
  | url :: urls' =>
      d ← scrape_recipe_data w url;
      comments ← first (split (recipe_comments d));
      recipes_loop w urls' recipe_type
        (recipes_info ++
           [{| Recipe_Type := recipe_type;
               Recipe_Name := recipe_name d;
               Rating := recipe_rate d;
               Comments := comments;
               Difficulty := recipe_difficulty d;
               Timer := recipe_timer d;
               Ingredients := ingredients_dict d;
               URL := url |}])
  end.

Definition scrape_recipes_info (w : web) (urls : list (option str))
    (recipe_type : option str) : result DataFrame :=
  recipes_info ← recipes_loop w urls recipe_type [];
  Ok (DataFrame_of recipes_info).

Definition append_dataframes (dataframes : list DataFrame) : result DataFrame :=
  Pd.concat dataframes.

Definition create_database (w : web) : result DataFrame :=
  links_entree ← scrape_recipe_links w (Some url_entree);
  df_entree ← scrape_recipes_info w links_entree (recipe_type url_entree);
  links_plat ← scrape_recipe_links w (Some url_plat);
  df_plat ← scrape_recipes_info w links_plat (recipe_type url_plat);
  links_dessert ← scrape_recipe_links w (Some url_dessert);
  df_dessert ← scrape_recipes_info w links_dessert (recipe_type url_dessert);
  append_dataframes [df_entree; df_plat; df_dessert].

Definition output_path : str := lit "DataFrame Marmiton.csv".

(** The module body: [create_database().to_csv("DataFrame Marmiton.csv")].
    The file system changes only once the table is complete. *)
Definition main (w : web) (fs : gmap str csv) : result unit * gmap str csv :=
  match create_database w with
  | Ok df => (Ok tt, to_csv df output_path fs)
  | Raise e => (Raise e, fs)
  end.

(** ** Structural induction over documents *)

Section node_forall_ind.

Variable P : node -> Prop.
Hypothesis P_string : forall s, P (NavigableString s).
Hypothesis P_comment : forall s, P (Comment s).
Hypothesis P_tag :
  forall name attrs cs, Forall P cs -> P (Tag name attrs cs).

Fixpoint node_forall_ind (n : node) : P n :=
  match n with
  | NavigableString s => P_string s
  | Comment s => P_comment s
  | Tag name attrs cs =>
      P_tag name attrs cs
        ((fix all (l : list node) : Forall P l :=
            match l with
            | [] => Forall_nil P
            | c :: l' => Forall_cons P c l' (node_forall_ind c) (all l')
            end) cs)
  end.

End node_forall_ind.

(** ** What the claims speak of, stated on the document itself *)

Module Page.

(** The CSS classes of a tag. *)
Definition classes (n : node) : list str :=
  match n with
  | Tag _ attrs _ => default [] (split <$> attrs !! lit "class")
  | _ => []
  end.

Definition tag_name (n : node) : option str :=
  match n with
  | Tag name _ _ => Some name
  | _ => None
  end.

Definition attr (key : str) (n : node) : option str :=
  match n with
  | Tag _ attrs _ => attrs !! key
  | _ => None
  end.

(** An anchor element with class [recipe-card-link]. *)
Definition is_recipe_card_anchor (n : node) : bool :=
  bool_decide (tag_name n = Some (lit "a"))
  && bool_decide (lit "recipe-card-link" ∈ classes n).

(** The recipe-card anchors at or below a node, by recursion on the
    document: a node comes before its children, children left to right. *)
Fixpoint anchors (n : node) : list node :=
  (if is_recipe_card_anchor n then [n] else []) ++
  match n with
  | Tag _ _ cs =>
      (fix go (l : list node) : list node :=
         match l with
         | [] => []
         | c :: l' => anchors c ++ go l'
         end) cs
  | _ => []
  end.

Fixpoint page_anchors (page : soup) : list node :=
  match page with
  | [] => []
  | c :: page' => anchors c ++ page_anchors page'
  end.

(** The first node of [l] that [first] selects exists and some node that
    [next] selects comes after it. *)
Fixpoint follows (first next : strainer) (l : list node) : bool :=
  match l with
  | [] => false
  | n :: l' =>
      if search_tag first n then existsb (search_tag next) l'
      else follows first next l'
  end.

(** Every ingredient card of [l] has a count element after it. *)
Fixpoint counts_follow (l : list node) : bool :=
  match l with
  | [] => true
  | n :: l' =>
      (if search_tag card_ingredient n
       then existsb (search_tag span_count) l' else true)
      && counts_follow l'
  end.

(** The markers of a detail page other than the ingredient cards. *)
Definition core_markers_present (page : soup) : bool :=
  let l := soup_descendants page in
  existsb (search_tag h1) l
  && existsb (search_tag rating_text) l
  && follows icon_comment reviews_anchor l
  && follows icon_difficulty span l
  && follows icon_timer span l.

Definition markers_present (page : soup) : bool :=
  core_markers_present page && counts_follow (soup_descendants page).

(** The ingredient blocks of a page, in document order. *)
Definition ingredient_blocks (page : soup) : list element :=
  find_all page card_ingredient.

Definition block_name (b : element) : option str := get b (lit "data-name").

(** The quantity of a block: the trimmed text of the next count element. *)
Definition block_quantity (b : element) : option str :=
  (fun q => strip (text q)) <$> find_next b span_count.

(** The text a field is read from: the first element that [first] selects
    or, with [next], the element after it that [next] selects. *)
Definition field_text (page : soup) (first : strainer)
    (next : option strainer) : option str :=
  match find page first, next with
  | Some e, None => Some (text e)
  | Some e, Some st => text <$> find_next e st
  | None, _ => None
  end.

(** The mapping the blocks describe, each block written over what the
    blocks before it left. *)
Definition blocks_dict (blocks : list element) (m : gmap str str)
    : gmap str str :=
  fold_left
    (fun m b => <[ default [] (block_name b) := default [] (block_quantity b) ]> m)
    blocks m.

(** The names of the blocks, in document order. *)
Definition block_names (blocks : list element) : list str :=
  List.map (fun b => default [] (block_name b)) blocks.

(** What extraction is expected to give on a page: the six fields when
    every marker is there, an [AttributeError] otherwise. *)
Definition expected_data (page : soup) : result recipe_data :=
  if markers_present page then
    Ok {| recipe_name := strip (default [] (field_text page h1 None));
          recipe_rate := strip (default [] (field_text page rating_text None));
          recipe_comments :=
            strip (default [] (field_text page icon_comment (Some reviews_anchor)));
          recipe_difficulty :=
            strip (default [] (field_text page icon_difficulty (Some span)));
          recipe_timer :=
            strip (default [] (field_text page icon_timer (Some span)));
          ingredients_dict := blocks_dict (ingredient_blocks page) ∅ |}
  else Raise AttributeError.

(** A field read from a source text: the source is there and the field
    is that text trimmed, empty exactly when the text is blank. *)
Definition read_from (field : str) (source : option str) : Prop :=
  exists t, source = Some t /\ field = strip t
            /\ (field = [] <-> forallb isspace t = true).

(** No whitespace at either end. *)
Definition trimmed (s : str) : Prop :=
  (forall c, head s = Some c -> isspace c = false)
  /\ (forall c, list.last s = Some c -> isspace c = false).

(** A link whose page yields a row: extraction succeeds and the comments
    phrase has a token. *)
Definition yields_row (w : web) (url : option str) : Prop :=
  exists d, scrape_recipe_data w url = Ok d /\ split (recipe_comments d) <> [].

(** The row one link contributes to its batch: the body of the loop over
    [urls]. *)
Definition row_of (w : web) (recipe_type : option str) (url : option str)
    : result record :=
  d ← scrape_recipe_data w url;
  comments ← first (split (recipe_comments d));
  Ok {| Recipe_Type := recipe_type;
        Recipe_Name := recipe_name d;
        Rating := recipe_rate d;
        Comments := comments;
        Difficulty := recipe_difficulty d;
        Timer := recipe_timer d;
        Ingredients := ingredients_dict d;
        URL := url |}.

(** The columns of a table built from these rows. *)
Definition columns_of (rs : list record) : list str :=
  match rs with
  | [] => []
  | _ :: _ => record_keys
  end.

(** The phrase "42 avis publiés"; 233 is the code point of the e with an
    acute accent. *)
Definition phrase_42 : str := lit "42 avis publi" ++ [233] ++ lit "s".

End Page.

Import Page.

(** ** Sample pages *)

Module Sample.

Local Open Scope string_scope.

Definition E (name : string) (attrs : list (string * string))
    (cs : list node) : node :=
  Tag (lit name)
      (list_to_map (List.map (fun kv => (lit (fst kv), lit (snd kv))) attrs))
      cs.

Definition T (s : string) : node := NavigableString (lit s).

Definition card (name quantity : string) : node :=
  E "div" [("class", "card-ingredient"); ("data-name", name)]
    [E "span" [("class", "card-ingredient-quantity")]
       [E "span" [("class", "count")] [T quantity];
        E "span" [("class", "unit")] [T "g"]];
     E "span" [("class", "ingredient-name")] [T name]].

Definition comment_block (phrase : str) : node :=
  E "div" []
    [E "i" [("class", "icon icon-icon_comment")] [];
     E "a" [("href", "#topReviewsTitle")] [NavigableString phrase]].

Definition difficulty_block : node :=
  E "div" [] [E "i" [("class", "icon icon-difficulty")] [];
              E "span" [] [T " facile "]].

Definition timer_block : node :=
  E "div" [] [E "i" [("class", "icon icon-timer1")] [];
              E "span" [] [T "30 min"]].

Definition document (body : list node) : soup :=
  [E "html" []
     [E "head" [] [E "title" [] [T "Marmiton"]];
      E "body" [] body]].

Definition detail (title : string) (phrase : str) (cards : list node) : soup :=
  document
    ([E "h1" [] [T title; Comment (lit " titre de la recette ")];
      E "span" [("class", "recipe-header__rating-text")] [T " 4.8/5 "];
      comment_block phrase; difficulty_block; timer_block] ++ cards)%list.

Definition tarte : soup :=
  detail "Tarte aux pommes" phrase_42 [card "farine" "200"; card "sucre" "80"].

(** Two cards named alike, and a blank heading. *)
Definition doubled : soup :=
  detail " " phrase_42 [card "farine" "200"; card "farine" "350"].

Definition no_cards : soup := detail "Eau chaude" phrase_42 [].

(** The comments anchor is there but holds only blanks. *)
Definition no_comment_text : soup := detail "Soupe" (lit "  ") [card "eau" "1"].

(** No difficulty icon. *)
Definition no_difficulty : soup :=
  document
    [E "h1" [] [T "Flan"];
     E "span" [("class", "recipe-header__rating-text")] [T "4/5"];
     comment_block phrase_42; timer_block; card "lait" "50"].

(** The address of a recipe page of the site. *)
Definition recette_href (slug : string) : string :=
  "https://www.marmiton.org/recettes/recette_" ++ slug ++ ".aspx".

Definition recette (slug : string) : str := lit (recette_href slug).

Definition anchor (slug : option string) : node :=
  E "div" [("class", "recipe-card")]
    [E "a" (("class", "recipe-card-link") ::
            match slug with
            | Some s => [("href", recette_href s)]
            | None => []
            end)
       [E "h4" [] [T "recette"]]].

Definition listing (slugs : list (option string)) : soup :=
  document (E "a" [("href", "https://www.marmiton.org/")] [T "accueil"]
            :: List.map anchor slugs).

Fixpoint serve (pages : list (str * soup)) (u : str) : option soup :=
  match pages with
  | [] => None
  | (u', page) :: pages' => if bool_decide (u = u') then Some page else serve pages' u
  end.

(** A site with 2, 1 and 3 recipes. *)
Definition site : web :=
  serve [(url_entree, listing [Some "e1"; Some "e2"]);
         (url_plat, listing [Some "p1"]);
         (url_dessert, listing [Some "d1"; Some "d2"; Some "d3"]);
         (recette "e1", tarte); (recette "e2", no_cards);
         (recette "p1", doubled); (recette "d1", tarte);
         (recette "d2", tarte); (recette "d3", no_cards)].

(** The same site with one dessert page lacking its difficulty icon. *)
Definition broken_site : web :=
  serve [(url_entree, listing [Some "e1"; Some "e2"]);
         (url_plat, listing [Some "p1"]);
         (url_dessert, listing [Some "d1"; Some "d2"; Some "d3"]);
         (recette "e1", tarte); (recette "e2", no_cards);
         (recette "p1", doubled); (recette "d1", tarte);
         (recette "d2", no_difficulty); (recette "d3", no_cards)].

(** A site whose listing pages show no recipe. *)
Definition empty_site : web :=
  serve [(url_entree, listing []); (url_plat, listing []);
         (url_dessert, listing [])].

(** A site with a recipe whose comments anchor is blank. *)
Definition blank_site : web :=
  serve [(recette "soupe", no_comment_text); (recette "tarte", tarte)].

(** The two ingredient blocks of [doubled]. *)
Definition doubled_first : element :=
  nth 0 (ingredient_blocks doubled) (Element (Comment []) []).
Definition doubled_second : element :=
  nth 1 (ingredient_blocks doubled) (Element (Comment []) []).

(** What extraction gives on a page, with an empty record when it fails. *)
Definition data_of (page : soup) : recipe_data :=
  match extract page with
  | Ok d => d
  | Raise _ => Recipe_data [] [] [] [] [] ∅
  end.

(** A file left by an earlier run. *)
Definition stale : csv := Csv [lit "old"] [].

(** A listing with an anchor that has no [href], and the site showing it
    as its entree listing. *)
Definition holed_listing : soup := listing [Some "a"; None; Some "c"].
Definition holed_site : web := serve [(url_entree, holed_listing)].

(** A card that has no count element of its own. *)
Definition bare_card (name : string) : node :=
  E "div" [("class", "card-ingredient"); ("data-name", name)]
    [E "span" [("class", "ingredient-name")] [T name]].

(** A page whose first card has no count, the second one has. *)
Definition borrowing : soup :=
  detail "Pain" phrase_42 [bare_card "sel"; card "farine" "500"].

Definition borrowing_first : element :=
  nth 0 (ingredient_blocks borrowing) (Element (Comment []) []).
Definition borrowing_second : element :=
  nth 1 (ingredient_blocks borrowing) (Element (Comment []) []).

(** The nodes between the two cards of [borrowing]. *)
Definition borrowing_between : list node :=
  firstn (length (next_elements borrowing_first)
          - S (length (next_elements borrowing_second)))
    (next_elements borrowing_first).

(** A page with a second heading below the recipe. *)
Definition two_headings : soup :=
  detail "Gratin" phrase_42 [card "lait" "25"; E "h1" [] [T "Voir aussi"]].

(** The nodes of [two_headings] before its first heading, that heading,
    and the nodes after it; the same around its rating element. *)
Definition before_heading : list node := firstn 5 (soup_descendants two_headings).
Definition heading : node := nth 5 (soup_descendants two_headings) (Comment []).
Definition after_heading : list node := skipn 6 (soup_descendants two_headings).
Definition before_rating : list node := firstn 8 (soup_descendants two_headings).
Definition rating : node := nth 8 (soup_descendants two_headings) (Comment []).
Definition after_rating : list node := skipn 9 (soup_descendants two_headings).

(** The anchor of [holed_listing] that has no [href]. *)
Definition holed_anchor : node :=
  nth 1 (page_anchors (listing [Some "a"; None; Some "c"])) (Comment []).

(** A site whose entree listing is [holed_listing] and which serves every
    page the listing links to; and the same site once the anchor without
    [href] is taken off the listing. *)
Definition holed_run_site : web :=
  serve [(url_entree, listing [Some "a"; None; Some "c"]);
         (url_plat, listing []); (url_dessert, listing []);
         (recette "a", tarte); (recette "c", no_cards)].
Definition mended_run_site : web :=
  serve [(url_entree, listing [Some "a"; Some "c"]);
         (url_plat, listing []); (url_dessert, listing []);
         (recette "a", tarte); (recette "c", no_cards)].

(** A site showing [borrowing] and [two_headings]. *)
Definition odd_site : web :=
  serve [(recette "pain", borrowing); (recette "gratin", two_headings)].

End Sample.

(** ** Facts about Python strings *)

Section strings.

Lemma lstrip_head s c : head (lstrip s) = Some c -> isspace c = false.
Proof.
  induction s as [|a s IH]; simpl; [discriminate|].
  destruct (isspace a) eqn:Ha; [exact IH|].
  simpl. intros [= <-]. exact Ha.
Qed.

Lemma lstrip_snoc s c :
  isspace c = false -> lstrip (s ++ [c]) = lstrip s ++ [c].
Proof.
  intros Hc. induction s as [|a s IH]; simpl.
  - now rewrite Hc.
  - destruct (isspace a); [exact IH|reflexivity].
Qed.

Lemma lstrip_nil_iff s : lstrip s = [] <-> forallb isspace s = true.
Proof.
  induction s as [|a s IH]; simpl; [tauto|].
  destruct (isspace a); simpl; [exact IH|].
  split; discriminate.
Qed.

(** Stripping a string that starts with a non-blank keeps that start. *)
Lemma rstrip_cons c s :
  isspace c = false -> rstrip (c :: s) = c :: rstrip s.
Proof.
  intros Hc. unfold rstrip. simpl.
  rewrite lstrip_snoc by exact Hc.
  now rewrite rev_app_distr.
Qed.

Lemma last_rev (s : str) : list.last (rev s) = head s.
Proof. destruct s as [|a s]; [reflexivity|]. simpl. apply last_snoc. Qed.

Lemma rstrip_last s c : list.last (rstrip s) = Some c -> isspace c = false.
Proof.
  unfold rstrip. rewrite last_rev. apply lstrip_head.
Qed.

Lemma strip_trimmed s : trimmed (strip s).
Proof.
  unfold strip. split.
  - intros c.
    destruct (lstrip s) as [|a t] eqn:Hs; [discriminate|].
    assert (Ha : isspace a = false) by (apply (lstrip_head s); now rewrite Hs).
    rewrite rstrip_cons by exact Ha.
    simpl. now intros [= <-].
  - apply rstrip_last.
Qed.

Lemma strip_nil_iff s : strip s = [] <-> forallb isspace s = true.
Proof.
  rewrite <- lstrip_nil_iff. unfold strip.
  destruct (lstrip s) as [|a t] eqn:Hs.
  - split; reflexivity.
  - assert (Ha : isspace a = false) by (apply (lstrip_head s); now rewrite Hs).
    rewrite rstrip_cons by exact Ha. split; discriminate.
Qed.



Lemma join_space_single (s : str) (toks : list str) :
  32 ∉ s -> s <> [] -> join (lit " ") toks = s -> s ∈ toks.
Proof.
  intros Hsp Hne.
  destruct toks as [|x [|y toks]]; simpl.
  - intros <-. now destruct Hne.
  - intros <-. apply list_elem_of_here.
  - intros <-. destruct Hsp. set_solver.
Qed.

(** A no-break space (160) separates tokens and is trimmed like a space. *)
Example split_no_break_space :
  split (lit "42" ++ [160] ++ lit "avis ") = [lit "42"; lit "avis"]
  /\ strip ([160] ++ lit " 42 avis" ++ [10]) = lit "42 avis".
Proof. split; reflexivity. Qed.

End strings.

(** ** Facts about searches *)

Section searches.

Lemma existsb_bool_decide_elem (s : str) (toks : list str) :
  existsb (fun item => bool_decide (item = s)) toks = bool_decide (s ∈ toks).
Proof.
  induction toks as [|x toks IH]; [reflexivity|].
  cbn [existsb]. rewrite IH.
  destruct (decide (x = s)) as [->|Hx].
  - rewrite bool_decide_eq_true_2 by reflexivity. simpl.
    symmetry. apply bool_decide_eq_true_2. apply list_elem_of_here.
  - rewrite (bool_decide_eq_false_2 (x = s)) by exact Hx. simpl.
    apply bool_decide_ext. rewrite elem_of_cons.
    split; [now right|]. intros [Heq|Hin]; [now destruct Hx|exact Hin].
Qed.

(** A search for one class name finds the tags that carry that class. *)
Lemma matches_list_single (s : str) (toks : list str) :
  32 ∉ s -> s <> [] -> matches_list toks (Is s) = bool_decide (s ∈ toks).
Proof.
  intros Hsp Hne. unfold matches_list. simpl.
  rewrite existsb_bool_decide_elem.
  destruct (decide (s ∈ toks)) as [Hin|Hin].
  - now rewrite bool_decide_eq_true_2.
  - rewrite (bool_decide_eq_false_2 (s ∈ toks)) by exact Hin. simpl.
    apply bool_decide_eq_false. intros Hj.
    apply Hin. now apply join_space_single.
Qed.

(** A class search with one name looks among the classes of a tag; with
    two names it wants exactly these classes in this order, whatever the
    blanks between them. *)
Example class_searches :
  List.map
    (fun c => matches_attr {[ lit "class" := lit c ]} (lit "class")
                (Is (lit "recipe-card-link")))
    ["recipe-card-link"; "card  recipe-card-link"; "recipe-card"]%string
  = [true; true; false]
  /\ List.map
       (fun c => matches_attr {[ lit "class" := lit c ]} (lit "class")
                   (Is (lit "icon icon-difficulty")))
       ["icon icon-difficulty"; " icon   icon-difficulty "; "icon-difficulty icon";
        "icon icon-difficulty big"; "icon"]%string
     = [true; true; false; false; false].
Proof. split; vm_compute; reflexivity. Qed.

Lemma find_all_in_el st l :
  List.map el (find_all_in st l) = List.filter (search_tag st) l.
Proof.
  unfold find_all_in. induction l as [|n l IH]; simpl; [reflexivity|].
  destruct (search_tag st n); simpl; now rewrite IH.
Qed.

Lemma find_all_in_search st l e :
  In e (find_all_in st l) -> search_tag st (el e) = true.
Proof. unfold find_all_in. intros H. now apply filter_In in H. Qed.

Lemma search_recipe_card_link n :
  search_tag recipe_card_link n = is_recipe_card_anchor n.
Proof.
  destruct n as [s|s|name attrs cs]; try reflexivity.
  unfold search_tag, is_recipe_card_anchor, matches_attr. simpl.
  rewrite andb_true_r.
  assert (Hn : bool_decide (name = lit "a")
               = bool_decide (Some name = Some (lit "a"))).
  { apply bool_decide_ext. split; congruence. }
  rewrite Hn. f_equal.
  destruct (attrs !! lit "class") as [v|]; simpl; [|reflexivity].
  apply matches_list_single; [|discriminate].
  vm_compute. intros H.
  repeat (apply elem_of_cons in H as [H|H]; [discriminate|]).
  now apply not_elem_of_nil in H.
Qed.

(** Filtering the nodes below [n] in document order is the recursion on
    the document. *)
Lemma filter_descendants n :
  List.filter is_recipe_card_anchor (n :: descendants n) = anchors n.
Proof.
  induction n as [s|s|name attrs cs IH] using node_forall_ind.
  - reflexivity.
  - reflexivity.
  - cbn [List.filter anchors descendants].
    assert (Hcs :
      List.filter is_recipe_card_anchor
        ((fix go (l : list node) : list node :=
            match l with
            | [] => []
            | c :: l' => c :: descendants c ++ go l'
            end) cs)
      = (fix go (l : list node) : list node :=
            match l with
            | [] => []
            | c :: l' => anchors c ++ go l'
            end) cs).
    { induction IH as [|c cs Hc _ IHcs]; [reflexivity|].
      change (c :: descendants c ++ ?r) with ((c :: descendants c) ++ r).
      rewrite filter_app, Hc, IHcs. reflexivity. }
    rewrite <- Hcs.
    destruct (is_recipe_card_anchor (Tag name attrs cs)); reflexivity.
Qed.

Lemma filter_soup_descendants page :
  List.filter is_recipe_card_anchor (soup_descendants page) = page_anchors page.
Proof.
  induction page as [|c page IH]; [reflexivity|].
  cbn [soup_descendants page_anchors].
  change (c :: descendants c ++ ?r) with ((c :: descendants c) ++ r).
  now rewrite filter_app, filter_descendants, IH.
Qed.

End searches.

(** ** The listing page and the classifier *)

Section listing.

Lemma scrape_recipe_links_eq (w : web) (url : str) (page : soup) :
  w url = Some page ->
  scrape_recipe_links w (Some url)
  = Ok (List.map (attr (lit "href")) (page_anchors page)).
Proof.
  intros Hw. unfold scrape_recipe_links, fetch. rewrite Hw. simpl.
  f_equal. unfold find_all.
  rewrite <- filter_soup_descendants.
  rewrite (List.filter_ext _ (search_tag recipe_card_link))
    by (intros n; symmetry; apply search_recipe_card_link).
  rewrite <- find_all_in_el, List.map_map. reflexivity.
Qed.

(** C2. On a listing page that holds N anchors of class
    [recipe-card-link], [scrape_recipe_links] returns N entries, the i-th
    being the [href] of the i-th such anchor in document order; an anchor
    without [href] gives the entry [None] at its place, it is neither
    dropped nor an error. *)
Theorem scrape_recipe_links_document_order (w : web) (url : str) (page : soup) :
  w url = Some page ->
  exists links,
    scrape_recipe_links w (Some url) = Ok links
    /\ length links = length (page_anchors page)
    /\ links = List.map (attr (lit "href")) (page_anchors page)
    /\ (forall i a, page_anchors page !! i = Some a ->
                    attr (lit "href") a = None -> links !! i = Some None).
Proof.
  intros Hw. exists (List.map (attr (lit "href")) (page_anchors page)).
  split; [exact (scrape_recipe_links_eq w url page Hw)|].
  split; [apply length_map|]. split; [reflexivity|].
  intros i a Hi Ha.
  change (List.map ?f ?l) with (f <$> l).
  now rewrite list_lookup_fmap, Hi, <- Ha.
Qed.

Lemma scrape_recipe_links_document_order_witness :
  Sample.holed_site url_entree = Some Sample.holed_listing
  /\ exists links,
      scrape_recipe_links Sample.holed_site (Some url_entree) = Ok links
      /\ length links = length (page_anchors Sample.holed_listing)
      /\ links = List.map (attr (lit "href")) (page_anchors Sample.holed_listing)
      /\ (forall i a, page_anchors Sample.holed_listing !! i = Some a ->
                      attr (lit "href") a = None -> links !! i = Some None).
Proof.
  split; [reflexivity|].
  apply (scrape_recipe_links_document_order
           Sample.holed_site url_entree Sample.holed_listing).
  reflexivity.
Defined.

(** The sample listing has three recipe anchors, the second without
    [href]; the links come out in that order with [None] in the middle. *)
Example holed_listing_links :
  scrape_recipe_links Sample.holed_site (Some url_entree)
  = Ok [Some (Sample.recette "a"); None; Some (Sample.recette "c")]
  /\ length (page_anchors Sample.holed_listing) = 3%nat.
Proof. split; vm_compute; reflexivity. Qed.

(** C3. [recipe_type] gives each of the three listing URLs its label and
    gives no label ([None]) to any other string. *)
Theorem recipe_type_closed (url : str) :
  recipe_type url_entree = Some (lit "entree")
  /\ recipe_type url_plat = Some (lit "plat")
  /\ recipe_type url_dessert = Some (lit "dessert")
  /\ (url <> url_entree -> url <> url_plat -> url <> url_dessert ->
      recipe_type url = None).
Proof.
  split; [reflexivity|]. split; [reflexivity|]. split; [reflexivity|].
  intros He Hp Hd. unfold recipe_type.
  rewrite (bool_decide_eq_false_2 _ He), (bool_decide_eq_false_2 _ Hp),
    (bool_decide_eq_false_2 _ Hd).
  reflexivity.
Qed.

Lemma recipe_type_closed_witness :
  lit "https://www.marmiton.org/" <> url_entree
  /\ lit "https://www.marmiton.org/" <> url_plat
  /\ lit "https://www.marmiton.org/" <> url_dessert
  /\ recipe_type (lit "https://www.marmiton.org/") = None.
Proof.
  assert (He : lit "https://www.marmiton.org/" <> url_entree) by discriminate.
  assert (Hp : lit "https://www.marmiton.org/" <> url_plat) by discriminate.
  assert (Hd : lit "https://www.marmiton.org/" <> url_dessert) by discriminate.
  split; [exact He|]. split; [exact Hp|]. split; [exact Hd|].
  exact (proj2 (proj2 (proj2 (recipe_type_closed (lit "https://www.marmiton.org/"))))
           He Hp Hd).
Defined.

End listing.

(** ** Extraction from a detail page *)

Section extraction.

Lemma head_find_all_in st l :
  match head (find_all_in st l) with Some _ => true | None => false end
  = existsb (search_tag st) l.
Proof.
  unfold find_all_in. induction l as [|n l IH]; simpl; [reflexivity|].
  destruct (search_tag st n); simpl; [reflexivity|exact IH].
Qed.

Lemma follows_find a b l :
  follows a b l
  = match head (find_all_in a l) with
    | Some e => existsb (search_tag b) (next_elements e)
    | None => false
    end.
Proof.
  unfold find_all_in. induction l as [|n l IH]; simpl; [reflexivity|].
  destruct (search_tag a n); simpl; [reflexivity|exact IH].
Qed.

Lemma counts_follow_find l :
  counts_follow l
  = forallb (fun e => existsb (search_tag span_count) (next_elements e))
      (find_all_in card_ingredient l).
Proof.
  unfold find_all_in. induction l as [|n l IH]; simpl; [reflexivity|].
  destruct (search_tag card_ingredient n); simpl; now rewrite IH.
Qed.

(** A tag that the ingredient search selects has a [data-name]. *)
Lemma card_ingredient_named e :
  search_tag card_ingredient (el e) = true -> is_Some (block_name e).
Proof.
  unfold block_name, get. destruct (el e) as [s|s|name attrs cs]; try discriminate.
  unfold search_tag, card_ingredient. simpl.
  rewrite !andb_true_iff. intros (_ & _ & H & _).
  unfold matches_attr in H. simpl in H.
  destruct (attrs !! lit "data-name"); [eauto|discriminate].
Qed.

Lemma blocks_dict_cons e tags m :
  blocks_dict (e :: tags) m
  = blocks_dict tags
      (<[ default [] (block_name e) := default [] (block_quantity e) ]> m).
Proof. reflexivity. Qed.

Lemma ingredients_loop_eq tags m :
  Forall (fun e => search_tag card_ingredient (el e) = true) tags ->
  ingredients_loop tags m
  = if forallb (fun e => existsb (search_tag span_count) (next_elements e)) tags
    then Ok (blocks_dict tags m) else Raise AttributeError.
Proof.
  intros Hall. revert m. induction Hall as [|e tags He _ IH]; intros m.
  - reflexivity.
  - cbn [ingredients_loop forallb].
    destruct (card_ingredient_named e He) as [name Hname].
    rewrite blocks_dict_cons. unfold block_quantity.
    unfold getitem. fold (block_name e). rewrite Hname.
    rewrite <- (head_find_all_in span_count (next_elements e)).
    unfold find_next.
    destruct (head (find_all_in span_count (next_elements e))) as [q|].
    + cbn. apply IH.
    + reflexivity.
Qed.

Lemma find_all_Forall page st :
  Forall (fun e => search_tag st (el e) = true) (find_all page st).
Proof.
  apply List.Forall_forall. intros e He.
  now apply find_all_in_search in He.
Qed.

(** Extraction is what is expected of it. *)
Lemma extract_eq page : extract page = expected_data page.
Proof.
  unfold extract, expected_data, markers_present, core_markers_present, field_text.
  rewrite <- !head_find_all_in, !follows_find, counts_follow_find.
  rewrite (ingredients_loop_eq _ _ (find_all_Forall page card_ingredient)).
  unfold ingredient_blocks, find, find_all.
  destruct (head (find_all_in h1 _)) as [e1|]; [|reflexivity].
  destruct (head (find_all_in rating_text _)) as [e2|]; [|reflexivity].
  destruct (head (find_all_in icon_comment _)) as [e3|]; [|reflexivity].
  cbn [text_of find_next_of mbind result_bind Py.bind]. unfold find_next.
  rewrite <- (head_find_all_in reviews_anchor).
  destruct (head (find_all_in reviews_anchor _)) as [q3|]; [|reflexivity].
  destruct (head (find_all_in icon_difficulty _)) as [e4|]; [|reflexivity].
  cbn [text_of find_next_of mbind result_bind Py.bind]. unfold find_next.
  rewrite <- (head_find_all_in span (next_elements e4)).
  destruct (head (find_all_in span (next_elements e4))) as [q4|]; [|reflexivity].
  destruct (head (find_all_in icon_timer _)) as [e5|]; [|reflexivity].
  cbn [text_of find_next_of mbind result_bind Py.bind]. unfold find_next.
  rewrite <- (head_find_all_in span (next_elements e5)).
  destruct (head (find_all_in span (next_elements e5))) as [q5|]; [|reflexivity].
  cbn [text_of andb].
  destruct (forallb _ _); reflexivity.
Qed.

Lemma scrape_recipe_data_eq (w : web) (url : str) (page : soup) :
  w url = Some page -> scrape_recipe_data w (Some url) = expected_data page.
Proof.
  intros Hw. unfold scrape_recipe_data, fetch. rewrite Hw.
  apply extract_eq.
Qed.

End extraction.

(** ** Batches and the whole table *)

Section batches.

Context (w : web).

Lemma recipes_loop_cons url urls ty acc :
  recipes_loop w (url :: urls) ty acc
  = r ← row_of w ty url; recipes_loop w urls ty (acc ++ [r]).
Proof.
  cbn [recipes_loop]. unfold row_of.
  destruct (scrape_recipe_data w url) as [d|e]; [|reflexivity].
  cbn [mbind result_bind Py.bind].
  destruct (first (split (recipe_comments d))); reflexivity.
Qed.

Lemma recipes_loop_ok urls ty rs acc :
  Forall2 (fun url r => row_of w ty url = Ok r) urls rs ->
  recipes_loop w urls ty acc = Ok (acc ++ rs).
Proof.
  intros H. revert acc. induction H as [|url r urls rs Hr _ IH]; intros acc.
  - cbn. now rewrite app_nil_r.
  - rewrite recipes_loop_cons, Hr. cbn. rewrite IH.
    now rewrite <- app_assoc.
Qed.

Lemma recipes_loop_inv urls ty acc l :
  recipes_loop w urls ty acc = Ok l ->
  exists rs, Forall2 (fun url r => row_of w ty url = Ok r) urls rs
             /\ l = acc ++ rs.
Proof.
  revert acc. induction urls as [|url urls IH]; intros acc.
  - cbn. intros [= <-]. exists []. split; [constructor|now rewrite app_nil_r].
  - rewrite recipes_loop_cons.
    destruct (row_of w ty url) as [r|e] eqn:Hr; [|discriminate].
    cbn. intros H. destruct (IH _ H) as (rs & Hrs & ->).
    exists (r :: rs). split; [now constructor|now rewrite <- app_assoc].
Qed.

Lemma scrape_recipes_info_ok urls ty rs :
  Forall2 (fun url r => row_of w ty url = Ok r) urls rs ->
  scrape_recipes_info w urls ty = Ok (DataFrame_of rs).
Proof.
  intros H. unfold scrape_recipes_info.
  now rewrite (recipes_loop_ok urls ty rs []).
Qed.

Lemma scrape_recipes_info_inv urls ty df :
  scrape_recipes_info w urls ty = Ok df ->
  exists rs, Forall2 (fun url r => row_of w ty url = Ok r) urls rs
             /\ df = DataFrame_of rs.
Proof.
  unfold scrape_recipes_info.
  destruct (recipes_loop w urls ty []) as [l|e] eqn:Hl; [|discriminate].
  cbn. intros [= <-].
  destruct (recipes_loop_inv _ _ _ _ Hl) as (rs & Hrs & ->).
  now exists rs.
Qed.

(** One link that gives no row leaves the batch without a table. *)
Lemma scrape_recipes_info_raise urls ty url e :
  url ∈ urls -> row_of w ty url = Raise e ->
  exists e', scrape_recipes_info w urls ty = Raise e'.
Proof.
  intros Hin Hr.
  destruct (scrape_recipes_info w urls ty) as [df|e'] eqn:Hdf; [|now exists e'].
  destruct (scrape_recipes_info_inv _ _ _ Hdf) as (rs & Hrs & _).
  apply list_elem_of_lookup in Hin as [i Hi].
  destruct (Forall2_lookup_l _ _ _ _ _ Hrs Hi) as (r & _ & Hr').
  congruence.
Qed.

Lemma row_of_fields ty url r :
  row_of w ty url = Ok r ->
  exists d, scrape_recipe_data w url = Ok d
            /\ head (split (recipe_comments d)) = Some (Comments r)
            /\ Recipe_Type r = ty /\ URL r = url
            /\ Recipe_Name r = recipe_name d /\ Rating r = recipe_rate d
            /\ Difficulty r = recipe_difficulty d /\ Timer r = recipe_timer d
            /\ Ingredients r = ingredients_dict d.
Proof.
  unfold row_of.
  destruct (scrape_recipe_data w url) as [d|e]; [|discriminate].
  cbn [mbind result_bind Py.bind].
  destruct (split (recipe_comments d)) as [|t ts] eqn:Hs; [discriminate|].
  cbn. intros [= <-]. exists d. rewrite Hs. cbn. repeat split.
Qed.

Lemma row_of_yields ty url :
  yields_row w url <-> exists r, row_of w ty url = Ok r.
Proof.
  unfold yields_row, row_of. split.
  - intros (d & -> & Hs). cbn [mbind result_bind Py.bind].
    destruct (split (recipe_comments d)) as [|t ts]; [now destruct Hs|].
    cbn. eauto.
  - intros (r & Hr).
    destruct (scrape_recipe_data w url) as [d|e]; [|discriminate].
    exists d. split; [reflexivity|].
    cbn [mbind result_bind Py.bind] in Hr.
    destruct (split (recipe_comments d)); [discriminate|discriminate].
Qed.

Lemma rows_of_batch ty urls rs :
  Forall2 (fun url r => row_of w ty url = Ok r) urls rs ->
  List.map URL rs = urls /\ List.map Recipe_Type rs = List.map (fun _ => ty) urls.
Proof.
  induction 1 as [|url r urls rs Hr _ [IH1 IH2]]; [now split|].
  destruct (row_of_fields _ _ _ Hr) as (d & _ & _ & Hty & Hurl & _).
  cbn. now rewrite IH1, IH2, Hty, Hurl.
Qed.

Lemma yields_rows ty urls :
  Forall (yields_row w) urls ->
  exists rs, Forall2 (fun url r => row_of w ty url = Ok r) urls rs.
Proof.
  induction 1 as [|url urls Hu _ [rs IH]]; [exists []; constructor|].
  apply (row_of_yields ty) in Hu as [r Hr].
  exists (r :: rs). now constructor.
Qed.

Lemma columns_of_batches (re rp rd : list record) :
  fold_left union_columns
    (List.map columns [DataFrame_of re; DataFrame_of rp; DataFrame_of rd]) []
  = columns_of (re ++ rp ++ rd).
Proof. destruct re, rp, rd; vm_compute; reflexivity. Qed.

Lemma append_batches (re rp rd : list record) :
  append_dataframes [DataFrame_of re; DataFrame_of rp; DataFrame_of rd]
  = Ok {| columns := columns_of (re ++ rp ++ rd);
          index := seq 0 (length (re ++ rp ++ rd));
          rows := re ++ rp ++ rd |}.
Proof.
  unfold append_dataframes, Pd.concat.
  rewrite columns_of_batches. cbn [List.flat_map rows DataFrame_of].
  now rewrite app_nil_r.
Qed.

(** The run gives a table exactly when the three listings are read and
    every link gives its row; the table is then the three batches in
    turn. *)
Lemma create_database_ok le lp ld re rp rd :
  scrape_recipe_links w (Some url_entree) = Ok le ->
  scrape_recipe_links w (Some url_plat) = Ok lp ->
  scrape_recipe_links w (Some url_dessert) = Ok ld ->
  Forall2 (fun url r => row_of w (Some (lit "entree")) url = Ok r) le re ->
  Forall2 (fun url r => row_of w (Some (lit "plat")) url = Ok r) lp rp ->
  Forall2 (fun url r => row_of w (Some (lit "dessert")) url = Ok r) ld rd ->
  create_database w
  = Ok {| columns := columns_of (re ++ rp ++ rd);
          index := seq 0 (length (re ++ rp ++ rd));
          rows := re ++ rp ++ rd |}.
Proof.
  intros He Hp Hd Hre Hrp Hrd. unfold create_database.
  rewrite He, Hp, Hd. cbn [mbind result_bind Py.bind].
  change (recipe_type url_entree) with (Some (lit "entree")).
  change (recipe_type url_plat) with (Some (lit "plat")).
  change (recipe_type url_dessert) with (Some (lit "dessert")).
  rewrite (scrape_recipes_info_ok _ _ _ Hre), (scrape_recipes_info_ok _ _ _ Hrp),
    (scrape_recipes_info_ok _ _ _ Hrd).
  cbn [mbind result_bind Py.bind].
  apply append_batches.
Qed.

Lemma create_database_inv df :
  create_database w = Ok df ->
  exists le lp ld re rp rd,
    scrape_recipe_links w (Some url_entree) = Ok le
    /\ scrape_recipe_links w (Some url_plat) = Ok lp
    /\ scrape_recipe_links w (Some url_dessert) = Ok ld
    /\ Forall2 (fun url r => row_of w (Some (lit "entree")) url = Ok r) le re
    /\ Forall2 (fun url r => row_of w (Some (lit "plat")) url = Ok r) lp rp
    /\ Forall2 (fun url r => row_of w (Some (lit "dessert")) url = Ok r) ld rd
    /\ df = {| columns := columns_of (re ++ rp ++ rd);
               index := seq 0 (length (re ++ rp ++ rd));
               rows := re ++ rp ++ rd |}.
Proof.
  intros Hdf. pose proof Hdf as Hrun. unfold create_database in Hrun.
  destruct (scrape_recipe_links w (Some url_entree)) as [le|] eqn:He; [|discriminate].
  cbn [mbind result_bind Py.bind] in Hrun.
  destruct (scrape_recipes_info w le _) as [dfe|] eqn:Hdfe; [|discriminate].
  cbn [mbind result_bind Py.bind] in Hrun.
  destruct (scrape_recipe_links w (Some url_plat)) as [lp|] eqn:Hp; [|discriminate].
  cbn [mbind result_bind Py.bind] in Hrun.
  destruct (scrape_recipes_info w lp _) as [dfp|] eqn:Hdfp; [|discriminate].
  cbn [mbind result_bind Py.bind] in Hrun.
  destruct (scrape_recipe_links w (Some url_dessert)) as [ld|] eqn:Hd; [|discriminate].
  cbn [mbind result_bind Py.bind] in Hrun.
  destruct (scrape_recipes_info w ld _) as [dfd|] eqn:Hdfd; [|discriminate].
  clear Hrun.
  apply scrape_recipes_info_inv in Hdfe as (re & Hre & ->).
  apply scrape_recipes_info_inv in Hdfp as (rp & Hrp & ->).
  apply scrape_recipes_info_inv in Hdfd as (rd & Hrd & ->).
  exists le, lp, ld, re, rp, rd.
  rewrite (create_database_ok le lp ld re rp rd) in Hdf by assumption.
  split; [reflexivity|]. split; [reflexivity|]. split; [reflexivity|].
  split; [exact Hre|]. split; [exact Hrp|]. split; [exact Hrd|].
  congruence.
Qed.

End batches.

(** ** The table of a run *)

Section table.

Context (w : web).

(** C1. When the entree, plat and dessert listings give 2, 1 and 3 links,
    the table [create_database] returns has exactly 6 rows, indexed 0 to 5:
    two of type "entree", then one "plat", then three "dessert", the rows
    of each batch in the order of its links.  The table is returned as
    soon as each of the six links yields a row. *)
Theorem create_database_2_1_3 (l1 l2 l3 l4 l5 l6 : option str) :
  scrape_recipe_links w (Some url_entree) = Ok [l1; l2] ->
  scrape_recipe_links w (Some url_plat) = Ok [l3] ->
  scrape_recipe_links w (Some url_dessert) = Ok [l4; l5; l6] ->
  (forall df, create_database w = Ok df ->
     length (rows df) = 6%nat
     /\ index df = [0; 1; 2; 3; 4; 5]%nat
     /\ List.map Recipe_Type (rows df)
        = [Some (lit "entree"); Some (lit "entree"); Some (lit "plat");
           Some (lit "dessert"); Some (lit "dessert"); Some (lit "dessert")]
     /\ List.map URL (rows df) = [l1; l2; l3; l4; l5; l6])
  /\ (Forall (yields_row w) [l1; l2; l3; l4; l5; l6] ->
      exists df, create_database w = Ok df).
Proof.
  intros He Hp Hd. split.
  - intros df Hdf.
    destruct (create_database_inv w df Hdf)
      as (le & lp & ld & re & rp & rd & He' & Hp' & Hd' & Hre & Hrp & Hrd & ->).
    rewrite He in He'. rewrite Hp in Hp'. rewrite Hd in Hd'.
    injection He' as <-. injection Hp' as <-. injection Hd' as <-.
    destruct (rows_of_batch w _ _ _ Hre) as [Ue Te].
    destruct (rows_of_batch w _ _ _ Hrp) as [Up Tp].
    destruct (rows_of_batch w _ _ _ Hrd) as [Ud Td].
    assert (Hlen : length (re ++ rp ++ rd) = 6%nat).
    { rewrite !length_app.
      rewrite <- (length_map URL re), <- (length_map URL rp),
        <- (length_map URL rd), Ue, Up, Ud. reflexivity. }
    cbn [rows index]. rewrite !map_app, Ue, Up, Ud, Te, Tp, Td, Hlen.
    repeat split.
  - intros Hall.
    assert (Fe : Forall (yields_row w) [l1; l2]).
    { repeat constructor; eapply (proj1 (List.Forall_forall _ _) Hall);
        cbn; tauto. }
    assert (Fp : Forall (yields_row w) [l3]).
    { repeat constructor; eapply (proj1 (List.Forall_forall _ _) Hall);
        cbn; tauto. }
    assert (Fd : Forall (yields_row w) [l4; l5; l6]).
    { repeat constructor; eapply (proj1 (List.Forall_forall _ _) Hall);
        cbn; tauto. }
    destruct (yields_rows w (Some (lit "entree")) _ Fe) as [re Hre].
    destruct (yields_rows w (Some (lit "plat")) _ Fp) as [rp Hrp].
    destruct (yields_rows w (Some (lit "dessert")) _ Fd) as [rd Hrd].
    eexists. exact (create_database_ok w _ _ _ re rp rd He Hp Hd Hre Hrp Hrd).
Qed.

(** C5. In a batch that [scrape_recipes_info] builds, the Comments value of
    the row of a link is the first whitespace-delimited token of the
    comments phrase extracted from its page; for the phrase
    "42 avis publiés" it is "42". *)
Theorem comments_first_token (urls : list (option str)) (ty : option str)
    (df : DataFrame) (i : nat) (url : option str) (d : recipe_data) :
  scrape_recipes_info w urls ty = Ok df ->
  urls !! i = Some url ->
  scrape_recipe_data w url = Ok d ->
  exists r,
    rows df !! i = Some r
    /\ head (split (recipe_comments d)) = Some (Comments r)
    /\ (recipe_comments d = phrase_42 -> Comments r = lit "42").
Proof.
  intros Hdf Hi Hd.
  destruct (scrape_recipes_info_inv w _ _ _ Hdf) as (rs & Hrs & ->).
  destruct (Forall2_lookup_l _ _ _ _ _ Hrs Hi) as (r & Hr & Hrow).
  exists r. split; [exact Hr|].
  destruct (row_of_fields w _ _ _ Hrow) as (d' & Hd' & Hc & _).
  assert (d' = d) as -> by congruence.
  split; [exact Hc|].
  intros Hphrase. rewrite Hphrase in Hc.
  change (head (split phrase_42)) with (Some (lit "42")) in Hc.
  now injection Hc as <-.
Qed.


(** C4. A detail page that lacks an expected marker makes
    [scrape_recipe_data] fail; every batch whose links include the page
    fails with it, and so does the run when a listing links to the page:
    no table is returned and no file is written. *)
Theorem missing_marker_aborts (url : str) (page : soup) :
  w url = Some page ->
  markers_present page = false ->
  scrape_recipe_data w (Some url) = Raise AttributeError
  /\ (forall urls ty, Some url ∈ urls ->
        exists e, scrape_recipes_info w urls ty = Raise e)
  /\ (forall listing links,
        listing ∈ [url_entree; url_plat; url_dessert] ->
        scrape_recipe_links w (Some listing) = Ok links ->
        Some url ∈ links ->
        exists e, create_database w = Raise e
                  /\ forall fs, main w fs = (Raise e, fs)).
Proof.
  intros Hw Hm.
  assert (Hdata : scrape_recipe_data w (Some url) = Raise AttributeError).
  { rewrite (scrape_recipe_data_eq w url page Hw).
    unfold expected_data. now rewrite Hm. }
  assert (Hrow : forall ty, row_of w ty (Some url) = Raise AttributeError).
  { intros ty. unfold row_of. now rewrite Hdata. }
  split; [exact Hdata|]. split.
  - intros urls ty Hin. exact (scrape_recipes_info_raise w urls ty _ _ Hin (Hrow ty)).
  - intros listing links Hlisting Hlinks Hin.
    destruct (create_database w) as [df|e] eqn:Hdf.
    + exfalso.
      destruct (create_database_inv w df Hdf)
        as (le & lp & ld & re & rp & rd & He & Hp & Hd & Hre & Hrp & Hrd & _).
      apply list_elem_of_lookup in Hin as [i Hi].
      rewrite !elem_of_cons in Hlisting.
      destruct Hlisting as [->|[->|[->|Hnil]]].
      * assert (links = le) as -> by congruence.
        destruct (Forall2_lookup_l _ _ _ _ _ Hre Hi) as (r & _ & Hr).
        rewrite Hrow in Hr. discriminate.
      * assert (links = lp) as -> by congruence.
        destruct (Forall2_lookup_l _ _ _ _ _ Hrp Hi) as (r & _ & Hr).
        rewrite Hrow in Hr. discriminate.
      * assert (links = ld) as -> by congruence.
        destruct (Forall2_lookup_l _ _ _ _ _ Hrd Hi) as (r & _ & Hr).
        rewrite Hrow in Hr. discriminate.
      * now apply not_elem_of_nil in Hnil.
    + exists e. split; [reflexivity|]. intros fs. unfold main. now rewrite Hdf.
Qed.

End table.

(** ** The ingredients mapping *)

Section ingredients.

Lemma blocks_dict_other (blocks : list element) (m : gmap str str) (k : str) :
  Forall (fun b => default [] (block_name b) <> k) blocks ->
  blocks_dict blocks m !! k = m !! k.
Proof.
  intros H. revert m. induction H as [|b blocks Hb _ IH]; intros m.
  - reflexivity.
  - rewrite blocks_dict_cons, IH. now apply lookup_insert_ne.
Qed.

(** The last block of a name decides the quantity stored under it. *)
Lemma blocks_dict_last (blocks : list element) (m : gmap str str)
    (j : nat) (b : element) (k : str) :
  blocks !! j = Some b ->
  default [] (block_name b) = k ->
  (forall j' b', (j < j')%nat -> blocks !! j' = Some b' ->
                 default [] (block_name b') <> k) ->
  blocks_dict blocks m !! k = Some (default [] (block_quantity b)).
Proof.
  revert m j. induction blocks as [|c blocks IH]; intros m j Hj Hk Hlater.
  - discriminate.
  - rewrite blocks_dict_cons. destruct j as [|j].
    + injection Hj as ->. rewrite blocks_dict_other.
      * rewrite Hk. apply lookup_insert_eq.
      * apply Forall_lookup_2. intros i b' Hi.
        apply (Hlater (S i) b'); [lia|exact Hi].
    + apply (IH _ j); [exact Hj|exact Hk|].
      intros j' b' Hlt Hj'. apply (Hlater (S j') b'); [lia|exact Hj'].
Qed.

Lemma blocks_dict_dom (blocks : list element) (m : gmap str str) :
  dom (blocks_dict blocks m)
  = (list_to_set (block_names blocks) : gset str) ∪ dom m.
Proof.
  revert m. induction blocks as [|b blocks IH]; intros m.
  - cbn. now rewrite (left_id_L ∅ (∪)).
  - rewrite blocks_dict_cons, IH, dom_insert_L. cbn.
    rewrite (comm_L (∪) {[ _ ]} (list_to_set _)).
    now rewrite (assoc_L (∪)).
Qed.

(** As many entries as there are names. *)
Lemma blocks_dict_size (blocks : list element) :
  size (blocks_dict blocks ∅) = length (remove_dups (block_names blocks)).
Proof.
  rewrite <- size_dom, blocks_dict_dom, dom_empty_L, (right_id_L ∅ (∪)).
  rewrite <- (size_list_to_set (C := gset str) (remove_dups _))
    by apply NoDup_remove_dups.
  f_equal. apply set_eq. intros x.
  now rewrite !elem_of_list_to_set, elem_of_remove_dups.
Qed.

Lemma remove_dups_length_le (l : list str) :
  (length (remove_dups l) <= length l)%nat.
Proof.
  induction l as [|x l IH]; cbn; [lia|].
  destruct (decide_rel elem_of x l); cbn; lia.
Qed.

Lemma remove_dups_NoDup (l : list str) : NoDup l -> remove_dups l = l.
Proof.
  induction 1 as [|x l Hx _ IH]; cbn; [reflexivity|].
  destruct (decide_rel elem_of x l); [contradiction|now rewrite IH].
Qed.

Lemma markers_fields (page : soup) :
  markers_present page = true ->
  is_Some (field_text page h1 None)
  /\ is_Some (field_text page rating_text None)
  /\ is_Some (field_text page icon_difficulty (Some span))
  /\ is_Some (field_text page icon_timer (Some span)).
Proof.
  unfold markers_present, core_markers_present, field_text.
  rewrite <- !head_find_all_in, !follows_find.
  unfold find, find_all, find_next.
  destruct (head (find_all_in h1 _)); [|discriminate].
  destruct (head (find_all_in rating_text _)); [|discriminate].
  destruct (head (find_all_in icon_comment _)) as [e3|]; [|discriminate].
  rewrite <- (head_find_all_in reviews_anchor).
  destruct (head (find_all_in reviews_anchor _)); [|discriminate].
  destruct (head (find_all_in icon_difficulty _)) as [e4|]; [|discriminate].
  rewrite <- (head_find_all_in span (next_elements e4)).
  destruct (head (find_all_in span (next_elements e4))); [|discriminate].
  destruct (head (find_all_in icon_timer _)) as [e5|]; [|discriminate].
  rewrite <- (head_find_all_in span (next_elements e5)).
  destruct (head (find_all_in span (next_elements e5))); [|discriminate].
  intros _. cbn. eauto.
Qed.

Lemma read_from_strip (source : option str) :
  is_Some source -> read_from (strip (default [] source)) source.
Proof.
  intros [t ->]. exists t. cbn. split; [reflexivity|].
  split; [reflexivity|apply strip_nil_iff].
Qed.

End ingredients.

Section detail_page.

Context (w : web).

(** C6. When two ingredient blocks carry the same name and different
    quantities, the later of them being the last block of that name, the
    mapping [scrape_recipe_data] returns holds the later quantity under
    the name and not the earlier one. *)
Theorem later_block_overwrites (url : str) (page : soup) (d : recipe_data)
    (i j : nat) (bi bj : element) (k qi qj : str) :
  w url = Some page ->
  scrape_recipe_data w (Some url) = Ok d ->
  ingredient_blocks page !! i = Some bi ->
  ingredient_blocks page !! j = Some bj ->
  (i < j)%nat ->
  block_name bi = Some k -> block_name bj = Some k ->
  block_quantity bi = Some qi -> block_quantity bj = Some qj ->
  qi <> qj ->
  (forall j' b, (j < j')%nat -> ingredient_blocks page !! j' = Some b ->
                block_name b <> Some k) ->
  ingredients_dict d !! k = Some qj /\ ingredients_dict d !! k <> Some qi.
Proof.
  intros Hw Hd Hi Hj Hij Hni Hnj Hqi Hqj Hq Hlater.
  rewrite (scrape_recipe_data_eq w url page Hw) in Hd.
  unfold expected_data in Hd.
  destruct (markers_present page); [|discriminate].
  injection Hd as <-. cbn [ingredients_dict].
  assert (Hk : blocks_dict (ingredient_blocks page) ∅ !! k = Some qj).
  { rewrite (blocks_dict_last _ _ j bj k Hj).
    - now rewrite Hqj.
    - now rewrite Hnj.
    - intros j' b' Hlt Hj' Hname.
      apply (Hlater j' b' Hlt Hj').
      assert (Hb' : In b' (ingredient_blocks page)).
      { apply list_elem_of_In, list_elem_of_lookup. eauto. }
      apply find_all_in_search, card_ingredient_named in Hb' as [name Hb'].
      rewrite Hb' in Hname |- *. cbn in Hname. congruence. }
  split; [exact Hk|]. rewrite Hk. congruence.
Qed.

(** C7, as the code has it. On a detail page with every expected marker,
    [scrape_recipe_data] returns for name, rating, difficulty and timer
    the trimmed text of their elements, which is empty when that text is
    blank, and a mapping with one entry per distinct block name: at most
    the number of blocks, and that number when no two blocks share a
    name. *)
Theorem extraction_with_all_markers (url : str) (page : soup) :
  w url = Some page ->
  markers_present page = true ->
  exists d,
    scrape_recipe_data w (Some url) = Ok d
    /\ read_from (recipe_name d) (field_text page h1 None)
    /\ read_from (recipe_rate d) (field_text page rating_text None)
    /\ read_from (recipe_difficulty d) (field_text page icon_difficulty (Some span))
    /\ read_from (recipe_timer d) (field_text page icon_timer (Some span))
    /\ trimmed (recipe_name d) /\ trimmed (recipe_rate d)
    /\ trimmed (recipe_difficulty d) /\ trimmed (recipe_timer d)
    /\ size (ingredients_dict d)
       = length (remove_dups (block_names (ingredient_blocks page)))
    /\ (size (ingredients_dict d) <= length (ingredient_blocks page))%nat
    /\ (NoDup (block_names (ingredient_blocks page)) ->
        size (ingredients_dict d) = length (ingredient_blocks page)).
Proof.
  intros Hw Hm.
  destruct (markers_fields page Hm) as (F1 & F2 & F3 & F4).
  rewrite (scrape_recipe_data_eq w url page Hw).
  unfold expected_data. rewrite Hm. eexists. split; [reflexivity|].
  cbn [recipe_name recipe_rate recipe_difficulty recipe_timer ingredients_dict].
  split; [now apply read_from_strip|]. split; [now apply read_from_strip|].
  split; [now apply read_from_strip|]. split; [now apply read_from_strip|].
  split; [apply strip_trimmed|]. split; [apply strip_trimmed|].
  split; [apply strip_trimmed|]. split; [apply strip_trimmed|].
  rewrite blocks_dict_size.
  split; [reflexivity|]. split.
  - etransitivity; [apply remove_dups_length_le|].
    unfold block_names. now rewrite length_map.
  - intros Hnd. rewrite (remove_dups_NoDup _ Hnd).
    unfold block_names. apply length_map.
Qed.


(** C8, as the code has it. On a successful run that found at least one
    recipe, the table written to the output file has exactly the columns
    Recipe Type, Recipe Name, Rating, Comments, Difficulty, Timer,
    Ingredients, URL in that order, preceded by a leading row-index
    column; on a successful run that found none it has the row-index
    column alone.  In both cases the file at the fixed path is fully
    overwritten: what it holds is the table of this run (the rows under
    their index labels), whatever the path held before, and no other path
    is touched. *)
Theorem written_table (fs fs' : gmap str csv) :
  main w fs = (Ok tt, fs') ->
  exists df file,
    create_database w = Ok df
    /\ fs' !! output_path = Some file
    /\ (rows df <> [] -> header file = [] :: record_keys)
    /\ (rows df = [] -> header file = [[]])
    /\ records file = combine (seq 0 (length (rows df))) (rows df)
    /\ (forall p, p <> output_path -> fs' !! p = fs !! p)
    /\ (forall fs2, snd (main w fs2) !! output_path = Some file).
Proof.
  unfold main.
  destruct (create_database w) as [df|e] eqn:Hdf; [|discriminate].
  intros [= <-].
  destruct (create_database_inv w df Hdf)
    as (le & lp & ld & re & rp & rd & _ & _ & _ & _ & _ & _ & ->).
  eexists. eexists. split; [reflexivity|].
  unfold to_csv. split; [apply lookup_insert_eq|].
  cbn [header records columns index rows].
  split; [|split; [|split; [reflexivity|split]]].
  - destruct (re ++ rp ++ rd); [intros H; now destruct H|reflexivity].
  - intros ->. reflexivity.
  - intros p Hp. now apply lookup_insert_ne.
  - intros fs2. cbn [snd]. apply lookup_insert_eq.
Qed.

End detail_page.

(** ** The claims on the sample pages *)

Section samples.

Import Sample.

Lemma site_yields (url : str) (page : soup) :
  site url = Some page ->
  is_Ok (extract page) = true ->
  split (recipe_comments (data_of page)) <> [] ->
  yields_row site (Some url).
Proof.
  intros Hw Hok Hs. exists (data_of page). split; [|exact Hs].
  unfold scrape_recipe_data, fetch, data_of. rewrite Hw. cbn.
  destruct (extract page); [reflexivity|discriminate].
Qed.

Lemma create_database_2_1_3_witness :
  scrape_recipe_links site (Some url_entree)
  = Ok [Some (recette "e1"); Some (recette "e2")]
  /\ scrape_recipe_links site (Some url_plat) = Ok [Some (recette "p1")]
  /\ scrape_recipe_links site (Some url_dessert)
     = Ok [Some (recette "d1"); Some (recette "d2"); Some (recette "d3")]
  /\ (forall df, create_database site = Ok df ->
        length (rows df) = 6%nat
        /\ index df = [0; 1; 2; 3; 4; 5]%nat
        /\ List.map Recipe_Type (rows df)
           = [Some (lit "entree"); Some (lit "entree"); Some (lit "plat");
              Some (lit "dessert"); Some (lit "dessert"); Some (lit "dessert")]
        /\ List.map URL (rows df)
           = [Some (recette "e1"); Some (recette "e2"); Some (recette "p1");
              Some (recette "d1"); Some (recette "d2"); Some (recette "d3")])
  /\ exists df, create_database site = Ok df.
Proof.
  assert (He : scrape_recipe_links site (Some url_entree)
               = Ok [Some (recette "e1"); Some (recette "e2")])
    by (vm_compute; reflexivity).
  assert (Hp : scrape_recipe_links site (Some url_plat) = Ok [Some (recette "p1")])
    by (vm_compute; reflexivity).
  assert (Hd : scrape_recipe_links site (Some url_dessert)
               = Ok [Some (recette "d1"); Some (recette "d2"); Some (recette "d3")])
    by (vm_compute; reflexivity).
  split; [exact He|]. split; [exact Hp|]. split; [exact Hd|].
  destruct (create_database_2_1_3 site _ _ _ _ _ _ He Hp Hd) as [Hshape Hruns].
  split; [exact Hshape|]. apply Hruns.
  repeat constructor.
  - apply (site_yields (recette "e1") tarte); [reflexivity|reflexivity|vm_compute; discriminate].
  - apply (site_yields (recette "e2") no_cards); [reflexivity|reflexivity|vm_compute; discriminate].
  - apply (site_yields (recette "p1") doubled); [reflexivity|reflexivity|vm_compute; discriminate].
  - apply (site_yields (recette "d1") tarte); [reflexivity|reflexivity|vm_compute; discriminate].
  - apply (site_yields (recette "d2") tarte); [reflexivity|reflexivity|vm_compute; discriminate].
  - apply (site_yields (recette "d3") no_cards); [reflexivity|reflexivity|vm_compute; discriminate].
Defined.

(** The page [no_difficulty] has every icon but the difficulty one. *)
Example no_difficulty_icons :
  List.map (fun st => existsb (search_tag st) (soup_descendants no_difficulty))
    [icon_comment; icon_difficulty; icon_timer]
  = [true; false; true].
Proof. vm_compute. reflexivity. Qed.

Lemma missing_marker_aborts_witness :
  broken_site (recette "d2") = Some no_difficulty
  /\ markers_present no_difficulty = false
  /\ scrape_recipe_data broken_site (Some (recette "d2")) = Raise AttributeError
  /\ (exists e, scrape_recipes_info broken_site
                  [Some (recette "d1"); Some (recette "d2"); Some (recette "d3")]
                  (Some (lit "dessert")) = Raise e)
  /\ (exists e, create_database broken_site = Raise e
                /\ forall fs, main broken_site fs = (Raise e, fs)).
Proof.
  assert (Hw : broken_site (recette "d2") = Some no_difficulty) by reflexivity.
  assert (Hm : markers_present no_difficulty = false) by (vm_compute; reflexivity).
  destruct (missing_marker_aborts broken_site (recette "d2") no_difficulty Hw Hm)
    as (Hdata & Hbatch & Hrun).
  split; [exact Hw|]. split; [exact Hm|]. split; [exact Hdata|]. split.
  - apply Hbatch. apply list_elem_of_further, list_elem_of_here.
  - apply (Hrun url_dessert
             [Some (recette "d1"); Some (recette "d2"); Some (recette "d3")]).
    + apply list_elem_of_further, list_elem_of_further, list_elem_of_here.
    + vm_compute. reflexivity.
    + apply list_elem_of_further, list_elem_of_here.
Defined.

Lemma comments_first_token_witness :
  exists df r,
    scrape_recipes_info site [Some (recette "e2"); Some (recette "e1")]
      (Some (lit "entree")) = Ok df
    /\ [Some (recette "e2"); Some (recette "e1")] !! 1%nat = Some (Some (recette "e1"))
    /\ scrape_recipe_data site (Some (recette "e1")) = Ok (data_of tarte)
    /\ recipe_comments (data_of tarte) = phrase_42
    /\ rows df !! 1%nat = Some r
    /\ Comments r = lit "42".
Proof.
  destruct (scrape_recipes_info site [Some (recette "e2"); Some (recette "e1")]
              (Some (lit "entree"))) as [df|e] eqn:Hdf;
    [|vm_compute in Hdf; discriminate].
  assert (Hd : scrape_recipe_data site (Some (recette "e1")) = Ok (data_of tarte))
    by (vm_compute; reflexivity).
  assert (Hc : recipe_comments (data_of tarte) = phrase_42)
    by (vm_compute; reflexivity).
  destruct (comments_first_token site _ _ df 1 _ _ Hdf eq_refl Hd)
    as (r & Hr & _ & H42).
  exists df, r. split; [reflexivity|]. split; [reflexivity|].
  split; [exact Hd|]. split; [exact Hc|]. split; [exact Hr|].
  exact (H42 Hc).
Defined.

(** On the sample site the Comments column reads "42" in every row. *)
Example site_comments :
  (fun df => List.map Comments (rows df)) <$> create_database site
  = Ok (List.map lit ["42"; "42"; "42"; "42"; "42"; "42"]%string).
Proof. vm_compute. reflexivity. Qed.


Lemma later_block_overwrites_witness :
  site (recette "p1") = Some doubled
  /\ scrape_recipe_data site (Some (recette "p1")) = Ok (data_of doubled)
  /\ ingredient_blocks doubled !! 0%nat = Some doubled_first
  /\ ingredient_blocks doubled !! 1%nat = Some doubled_second
  /\ block_name doubled_first = Some (lit "farine")
  /\ block_name doubled_second = Some (lit "farine")
  /\ block_quantity doubled_first = Some (lit "200")
  /\ block_quantity doubled_second = Some (lit "350")
  /\ ingredients_dict (data_of doubled) !! lit "farine" = Some (lit "350")
  /\ ingredients_dict (data_of doubled) !! lit "farine" <> Some (lit "200").
Proof.
  assert (Hw : site (recette "p1") = Some doubled) by reflexivity.
  assert (Hd : scrape_recipe_data site (Some (recette "p1")) = Ok (data_of doubled))
    by (vm_compute; reflexivity).
  assert (H0 : ingredient_blocks doubled !! 0%nat = Some doubled_first)
    by (vm_compute; reflexivity).
  assert (H1 : ingredient_blocks doubled !! 1%nat = Some doubled_second)
    by (vm_compute; reflexivity).
  assert (N0 : block_name doubled_first = Some (lit "farine"))
    by (vm_compute; reflexivity).
  assert (N1 : block_name doubled_second = Some (lit "farine"))
    by (vm_compute; reflexivity).
  assert (Q0 : block_quantity doubled_first = Some (lit "200"))
    by (vm_compute; reflexivity).
  assert (Q1 : block_quantity doubled_second = Some (lit "350"))
    by (vm_compute; reflexivity).
  assert (Hlen : length (ingredient_blocks doubled) = 2%nat)
    by (vm_compute; reflexivity).
  repeat (split; [assumption|]).
  apply (later_block_overwrites site (recette "p1") doubled (data_of doubled) 0 1
           doubled_first doubled_second (lit "farine") (lit "200") (lit "350")
           Hw Hd H0 H1 (le_n 1) N0 N1 Q0 Q1).
  - discriminate.
  - intros j' b Hlt Hj'. apply lookup_lt_Some in Hj'. lia.
Defined.

(** The claim of C7 fails on the page [doubled]: every marker is there,
    yet the name is empty and the two blocks give a mapping of size 1. *)
Lemma all_markers_claim_fails :
  markers_present doubled = true
  /\ exists d, scrape_recipe_data site (Some (recette "p1")) = Ok d
               /\ recipe_name d = []
               /\ length (ingredient_blocks doubled) = 2%nat
               /\ size (ingredients_dict d) = 1%nat
               /\ size (ingredients_dict d) <> length (ingredient_blocks doubled).
Proof.
  split; [vm_compute; reflexivity|].
  exists (data_of doubled).
  split; [vm_compute; reflexivity|]. split; [vm_compute; reflexivity|].
  split; [vm_compute; reflexivity|]. split; [vm_compute; reflexivity|].
  vm_compute. discriminate.
Qed.

Lemma extraction_with_all_markers_witness :
  site (recette "e1") = Some tarte
  /\ markers_present tarte = true
  /\ exists d,
      scrape_recipe_data site (Some (recette "e1")) = Ok d
      /\ read_from (recipe_name d) (field_text tarte h1 None)
      /\ read_from (recipe_rate d) (field_text tarte rating_text None)
      /\ read_from (recipe_difficulty d) (field_text tarte icon_difficulty (Some span))
      /\ read_from (recipe_timer d) (field_text tarte icon_timer (Some span))
      /\ trimmed (recipe_name d) /\ trimmed (recipe_rate d)
      /\ trimmed (recipe_difficulty d) /\ trimmed (recipe_timer d)
      /\ size (ingredients_dict d)
         = length (remove_dups (block_names (ingredient_blocks tarte)))
      /\ (size (ingredients_dict d) <= length (ingredient_blocks tarte))%nat
      /\ (NoDup (block_names (ingredient_blocks tarte)) ->
          size (ingredients_dict d) = length (ingredient_blocks tarte)).
Proof.
  assert (Hw : site (recette "e1") = Some tarte) by reflexivity.
  assert (Hm : markers_present tarte = true) by (vm_compute; reflexivity).
  split; [exact Hw|]. split; [exact Hm|].
  exact (extraction_with_all_markers site (recette "e1") tarte Hw Hm).
Defined.


(** The claim of C8 fails on a site whose listings show no recipe: the
    run succeeds and the file holds the index column alone. *)
Lemma header_claim_fails :
  exists file,
    main empty_site ∅ = (Ok tt, {[ output_path := file ]})
    /\ header file = [[]]
    /\ header file <> [] :: record_keys.
Proof.
  exists (Csv [[]] []).
  split; [vm_compute; reflexivity|]. split; [reflexivity|]. discriminate.
Qed.

Lemma written_table_witness :
  let fs : gmap str csv := {[ output_path := stale; lit "notes.txt" := stale ]} in
  main site fs = (Ok tt, snd (main site fs))
  /\ exists df file,
      create_database site = Ok df
      /\ snd (main site fs) !! output_path = Some file
      /\ (rows df <> [] -> header file = [] :: record_keys)
      /\ (rows df = [] -> header file = [[]])
      /\ records file = combine (seq 0 (length (rows df))) (rows df)
      /\ (forall p, p <> output_path -> snd (main site fs) !! p = fs !! p)
      /\ (forall fs2, snd (main site fs2) !! output_path = Some file).
Proof.
  intros fs.
  assert (Hrun : main site fs = (Ok tt, snd (main site fs))).
  { unfold main.
    destruct (create_database site) as [df|e] eqn:Hdf; [reflexivity|].
    vm_compute in Hdf. discriminate. }
  split; [exact Hrun|].
  exact (written_table site fs (snd (main site fs)) Hrun).
Defined.

(** On the sample site the file left by an earlier run is replaced by a
    table of six records under the nine labels. *)
Example site_file :
  (fun file => (header file, List.map fst (records file)))
    <$> snd (main site {[ output_path := stale ]}) !! output_path
  = Some ([] :: record_keys, [0; 1; 2; 3; 4; 5]%nat).
Proof. vm_compute. reflexivity. Qed.

End samples.

(** ** Further properties of the batches *)

Section more_batches.

Context (w : web).

Lemma recipes_loop_app ok more ty rs acc :
  Forall2 (fun url r => row_of w ty url = Ok r) ok rs ->
  recipes_loop w (ok ++ more) ty acc = recipes_loop w more ty (acc ++ rs).
Proof.
  intros H. revert acc. induction H as [|url r ok rs Hr _ IH]; intros acc.
  - cbn. now rewrite app_nil_r.
  - cbn [app]. rewrite recipes_loop_cons, Hr. cbn [mbind result_bind Py.bind].
    rewrite IH. now rewrite <- app_assoc.
Qed.

Lemma Forall2_length_eq {A B} (R : A -> B -> Prop) l k :
  Forall2 R l k -> length l = length k.
Proof. induction 1; cbn; congruence. Qed.

(** A batch that is built has one row per link, in the order of the links,
    numbered from 0, each row carrying the label of the batch and its own
    link; it has the eight columns unless there was no link. *)
Theorem batch_rows_follow_links (urls : list (option str)) (ty : option str)
    (df : DataFrame) :
  scrape_recipes_info w urls ty = Ok df ->
  length (rows df) = length urls
  /\ index df = seq 0 (length urls)
  /\ List.map URL (rows df) = urls
  /\ (forall r, In r (rows df) -> Recipe_Type r = ty)
  /\ columns df = match urls with [] => [] | _ :: _ => record_keys end.
Proof.
  intros Hdf.
  destruct (scrape_recipes_info_inv w _ _ _ Hdf) as (rs & Hrs & ->).
  destruct (rows_of_batch w _ _ _ Hrs) as [HU HT].
  pose proof (Forall2_length_eq _ _ _ Hrs) as Hlen.
  cbn [rows index columns DataFrame_of].
  split; [congruence|]. split; [congruence|]. split; [exact HU|]. split.
  - intros r Hr.
    apply (in_map Recipe_Type) in Hr. rewrite HT in Hr.
    apply in_map_iff in Hr as (u & Hu & _). now symmetry.
  - destruct Hrs; reflexivity.
Qed.

(** The links before the first failing one have yielded their rows when the
    batch stops: the batch raises what that link raises, whatever comes
    after it. *)
Theorem batch_first_failure (ok rest : list (option str)) (url : option str)
    (ty : option str) :
  Forall (yields_row w) ok ->
  (forall e, scrape_recipe_data w url = Raise e ->
             scrape_recipes_info w (ok ++ url :: rest) ty = Raise e)
  /\ (forall d, scrape_recipe_data w url = Ok d ->
                split (recipe_comments d) = [] ->
                scrape_recipes_info w (ok ++ url :: rest) ty = Raise IndexError).
Proof.
  intros Hok. destruct (yields_rows w ty ok Hok) as [rs Hrs].
  unfold scrape_recipes_info.
  rewrite (recipes_loop_app ok (url :: rest) ty rs [] Hrs), recipes_loop_cons.
  unfold row_of. split.
  - intros e He. now rewrite He.
  - intros d Hd Hs. rewrite Hd. cbn [mbind result_bind Py.bind].
    now rewrite Hs.
Qed.

Lemma fold_union_columns (batches : list (list record)) (acc : list record) :
  fold_left union_columns
    (List.map columns (List.map DataFrame_of batches)) (columns_of acc)
  = columns_of (acc ++ List.concat batches).
Proof.
  revert acc. induction batches as [|b batches IH]; intros acc.
  - cbn. now rewrite app_nil_r.
  - cbn [List.map fold_left List.concat].
    rewrite app_assoc, <- IH. f_equal.
    destruct acc, b; reflexivity.
Qed.

Lemma concat_cons (d : DataFrame) (dfs : list DataFrame) :
  Pd.concat (d :: dfs)
  = Ok {| columns := fold_left union_columns (List.map columns (d :: dfs)) [];
          index := seq 0 (length (List.flat_map rows (d :: dfs)));
          rows := List.flat_map rows (d :: dfs) |}.
Proof. reflexivity. Qed.

(** [append_dataframes] of batches: with no batch it raises [ValueError];
    otherwise the rows of the batches follow one another under a fresh
    index from 0, with the eight columns as soon as one batch has a row. *)
Theorem append_dataframes_batches (batches : list (list record)) :
  append_dataframes (List.map DataFrame_of batches)
  = match batches with
    | [] => Raise ValueError
    | _ :: _ =>
        Ok {| columns := columns_of (List.concat batches);
              index := seq 0 (length (List.concat batches));
              rows := List.concat batches |}
    end.
Proof.
  destruct batches as [|b batches]; [reflexivity|].
  pose proof (fold_union_columns (b :: batches) []) as Hc.
  change (columns_of []) with (@nil str) in Hc.
  change ([] ++ List.concat (b :: batches)) with (List.concat (b :: batches)) in Hc.
  assert (Hrows : forall bs, List.flat_map rows (List.map DataFrame_of bs)
                             = List.concat bs).
  { induction bs as [|x bs IH]; [reflexivity|]. cbn. now rewrite IH. }
  unfold append_dataframes.
  change (List.map DataFrame_of (b :: batches))
    with (DataFrame_of b :: List.map DataFrame_of batches).
  rewrite concat_cons.
  change (DataFrame_of b :: List.map DataFrame_of batches)
    with (List.map DataFrame_of (b :: batches)).
  now rewrite Hc, Hrows.
Qed.

(** A label that [recipe_type] gives tells which listing it was given. *)
Theorem recipe_type_label (url label : str) :
  recipe_type url = Some label ->
  (label = lit "entree" /\ url = url_entree)
  \/ (label = lit "plat" /\ url = url_plat)
  \/ (label = lit "dessert" /\ url = url_dessert).
Proof.
  unfold recipe_type.
  destruct (decide (url = url_entree)) as [->|He].
  { intros [= <-]. now left. }
  rewrite (bool_decide_eq_false_2 _ He).
  destruct (decide (url = url_plat)) as [->|Hp].
  { intros [= <-]. right. now left. }
  rewrite (bool_decide_eq_false_2 _ Hp).
  destruct (decide (url = url_dessert)) as [->|Hd].
  { intros [= <-]. right. now right. }
  rewrite (bool_decide_eq_false_2 _ Hd). discriminate.
Qed.

End more_batches.

(** ** Further properties of extraction *)

Section more_extraction.

Context (w : web).

Lemma scrape_recipe_data_inv (url : option str) (d : recipe_data) :
  scrape_recipe_data w url = Ok d ->
  exists u page, url = Some u /\ w u = Some page
                 /\ markers_present page = true
                 /\ expected_data page = Ok d.
Proof.
  unfold scrape_recipe_data, fetch.
  destruct url as [u|]; [|discriminate].
  destruct (w u) as [page|] eqn:Hw; [|discriminate].
  cbn [mbind result_bind Py.bind]. rewrite extract_eq. intros Hd.
  exists u, page. split; [reflexivity|]. split; [exact Hw|].
  split; [|exact Hd].
  unfold expected_data in Hd. destruct (markers_present page); [reflexivity|discriminate].
Qed.

(** Searching skips the nodes that do not match. *)
Lemma find_all_in_skip st pre l :
  Forall (fun n => search_tag st n = false) pre ->
  find_all_in st (pre ++ l) = find_all_in st l.
Proof.
  unfold find_all_in. induction 1 as [|n pre Hn _ IH]; [reflexivity|].
  cbn. now rewrite Hn.
Qed.

Lemma find_all_in_here st n l :
  search_tag st n = true ->
  find_all_in st (n :: l) = Element n l :: find_all_in st l.
Proof. intros Hn. unfold find_all_in. cbn. now rewrite Hn. Qed.

(** Of several headings the first in document order names the recipe, and
    of several rating elements the first gives the rating. *)
Theorem first_match_is_read (url : str) (page : soup) (d : recipe_data)
    (pre post : list node) (n : node) :
  w url = Some page ->
  scrape_recipe_data w (Some url) = Ok d ->
  soup_descendants page = pre ++ n :: post ->
  (Forall (fun m => search_tag h1 m = false) pre -> search_tag h1 n = true ->
   recipe_name d = strip (text (Element n post)))
  /\ (Forall (fun m => search_tag rating_text m = false) pre ->
      search_tag rating_text n = true ->
      recipe_rate d = strip (text (Element n post))).
Proof.
  intros Hw Hd Hl.
  rewrite (scrape_recipe_data_eq w url page Hw) in Hd.
  unfold expected_data in Hd.
  destruct (markers_present page); [|discriminate].
  injection Hd as <-. cbn [recipe_name recipe_rate].
  unfold field_text, find, find_all. rewrite Hl.
  split; intros Hpre Hn;
    now rewrite (find_all_in_skip _ pre _ Hpre), (find_all_in_here _ n post Hn).
Qed.

(** Looking for the count of a card goes past the card: with no count
    element before the next card, the search started at the card finds
    what the search started at the next card finds. *)
Lemma find_next_past_card (b b' : element) (between : list node) :
  next_elements b = between ++ el b' :: next_elements b' ->
  Forall (fun n => search_tag span_count n = false) between ->
  search_tag card_ingredient (el b') = true ->
  find_next b span_count = find_next b' span_count.
Proof.
  intros Hnext Hbetween Hcard.
  unfold find_next. rewrite Hnext, (find_all_in_skip _ _ _ Hbetween).
  unfold find_all_in. cbn [positions List.filter el].
  assert (Hno : search_tag span_count (el b') = false).
  { destruct (el b') as [s|s|name attrs cs]; try reflexivity.
    unfold search_tag in Hcard |- *. cbn [s_name card_ingredient span_count] in *.
    apply andb_true_iff in Hcard as [Hname _].
    apply bool_decide_eq_true in Hname. subst name. reflexivity. }
  now rewrite Hno.
Qed.

(** An ingredient block with no count element before the next block does
    not make [scrape_recipe_data] fail: on a page with the other markers,
    where every other block has a count element after it, extraction
    succeeds and stores under the name of that block the quantity of the
    next block (the block being the last of its name). *)
Theorem count_is_sought_past_the_card (url : str) (page : soup) (i : nat)
    (b b' : element) (between : list node) (k : str) :
  w url = Some page ->
  core_markers_present page = true ->
  ingredient_blocks page !! i = Some b ->
  ingredient_blocks page !! S i = Some b' ->
  next_elements b = between ++ el b' :: next_elements b' ->
  Forall (fun n => search_tag span_count n = false) between ->
  block_name b = Some k ->
  (forall j c, j <> i -> ingredient_blocks page !! j = Some c ->
               is_Some (find_next c span_count)) ->
  (forall j c, (i < j)%nat -> ingredient_blocks page !! j = Some c ->
               block_name c <> Some k) ->
  exists d q,
    scrape_recipe_data w (Some url) = Ok d
    /\ block_quantity b' = Some q
    /\ ingredients_dict d !! k = Some q.
Proof.
  intros Hw Hcore Hi Hi' Hnext Hbetween Hname Hothers Hlast.
  assert (Hcard : search_tag card_ingredient (el b') = true).
  { apply (find_all_in_search card_ingredient (soup_descendants page)).
    apply list_elem_of_In, list_elem_of_lookup. now exists (S i). }
  pose proof (find_next_past_card b b' between Hnext Hbetween Hcard) as Hfind.
  destruct (Hothers (S i) b' (Nat.neq_succ_diag_l i) Hi') as [c Hc].
  assert (Hcounts : counts_follow (soup_descendants page) = true).
  { rewrite counts_follow_find. apply forallb_forall. intros x Hx.
    rewrite <- head_find_all_in.
    change (head (find_all_in span_count (next_elements x)))
      with (find_next x span_count).
    apply list_elem_of_In, list_elem_of_lookup in Hx as [j Hj].
    destruct (decide (j = i)) as [->|Hji].
    - unfold ingredient_blocks, find_all in Hi. rewrite Hi in Hj.
      injection Hj as <-. now rewrite Hfind, Hc.
    - destruct (Hothers j x Hji Hj) as [c' Hc']. now rewrite Hc'. }
  rewrite (scrape_recipe_data_eq w url page Hw).
  unfold expected_data, markers_present. rewrite Hcore, Hcounts.
  eexists. exists (strip (text c)). split; [reflexivity|].
  split; [unfold block_quantity; now rewrite Hc|].
  cbn [ingredients_dict].
  rewrite (blocks_dict_last _ _ i b k Hi).
  - unfold block_quantity. now rewrite Hfind, Hc.
  - now rewrite Hname.
  - intros j c' Hlt Hj Hk. apply (Hlast j c' Hlt Hj).
    assert (Hin : In c' (ingredient_blocks page)).
    { apply list_elem_of_In, list_elem_of_lookup. eauto. }
    apply find_all_in_search, card_ingredient_named in Hin as [name Hc'].
    rewrite Hc' in Hk |- *. cbn in Hk. congruence.
Qed.

Lemma blocks_dict_lookup (blocks : list element) (m : gmap str str) (k q : str) :
  blocks_dict blocks m !! k = Some q ->
  m !! k = Some q
  \/ exists b, In b blocks /\ default [] (block_name b) = k
               /\ default [] (block_quantity b) = q.
Proof.
  revert m. induction blocks as [|b blocks IH]; intros m; [now left|].
  rewrite blocks_dict_cons. intros H. apply IH in H as [H|(b' & Hin & Hk & Hq)].
  - destruct (decide (default [] (block_name b) = k)) as [Hk|Hk].
    + rewrite Hk, lookup_insert_eq in H. injection H as <-.
      right. exists b. split; [now left|]. now split.
    + rewrite lookup_insert_ne in H by exact Hk. now left.
  - right. exists b'. split; [now right|]. now split.
Qed.

Lemma blocks_dict_is_Some (blocks : list element) (m : gmap str str) (k : str) :
  is_Some (blocks_dict blocks m !! k)
  <-> is_Some (m !! k) \/ In k (block_names blocks).
Proof.
  rewrite <- !elem_of_dom, blocks_dict_dom, elem_of_union, elem_of_list_to_set.
  rewrite list_elem_of_In. tauto.
Qed.

(** The mapping returned has an entry for exactly the names the ingredient
    blocks carry; each stored quantity is the trimmed text of the count
    found after a block of that name; the comments phrase is trimmed too. *)
Theorem ingredients_are_the_blocks (url : str) (page : soup) (d : recipe_data) :
  w url = Some page ->
  scrape_recipe_data w (Some url) = Ok d ->
  (forall k, is_Some (ingredients_dict d !! k)
             <-> exists b, In b (ingredient_blocks page) /\ block_name b = Some k)
  /\ (forall k q, ingredients_dict d !! k = Some q ->
        trimmed q
        /\ exists b, In b (ingredient_blocks page) /\ block_name b = Some k
                     /\ block_quantity b = Some q)
  /\ trimmed (recipe_comments d).
Proof.
  intros Hw Hd.
  rewrite (scrape_recipe_data_eq w url page Hw) in Hd.
  unfold expected_data in Hd.
  destruct (markers_present page) eqn:Hm; [|discriminate].
  injection Hd as <-. cbn [ingredients_dict recipe_comments].
  assert (Hnamed : forall b, In b (ingredient_blocks page) ->
                             is_Some (block_name b)).
  { intros b Hb. now apply find_all_in_search, card_ingredient_named in Hb. }
  assert (Hcounted : forall b, In b (ingredient_blocks page) ->
                               is_Some (block_quantity b)).
  { intros b Hb. unfold markers_present in Hm.
    apply andb_true_iff in Hm as [_ Hc].
    rewrite counts_follow_find in Hc.
    rewrite forallb_forall in Hc. specialize (Hc b Hb).
    rewrite <- head_find_all_in in Hc.
    unfold block_quantity, find_next.
    destruct (head (find_all_in span_count (next_elements b)));
      [cbn; eauto|discriminate]. }
  split; [|split; [|apply strip_trimmed]].
  - intros k. rewrite blocks_dict_is_Some, lookup_empty.
    unfold block_names. rewrite in_map_iff. split.
    + intros [[x Hx]|(b & Hk & Hb)]; [discriminate|].
      exists b. split; [exact Hb|].
      destruct (Hnamed b Hb) as [name Hname].
      rewrite Hname in Hk |- *. cbn in Hk. now subst.
    + intros (b & Hb & Hk). right. exists b. split; [|exact Hb].
      now rewrite Hk.
  - intros k q Hq.
    apply blocks_dict_lookup in Hq as [Hq|(b & Hb & Hk & Hq)];
      [rewrite lookup_empty in Hq; discriminate|].
    destruct (Hnamed b Hb) as [name Hname].
    destruct (Hcounted b Hb) as [quantity Hquantity].
    rewrite Hname in Hk. rewrite Hquantity in Hq. cbn in Hk, Hq. subst.
    split.
    + unfold block_quantity in Hquantity.
      destruct (find_next b span_count) as [c|]; [|discriminate].
      cbn in Hquantity. injection Hquantity as <-. apply strip_trimmed.
    + exists b. now repeat split.
Qed.

Lemma scrape_recipe_data_raises (url : option str) (e : exn) :
  scrape_recipe_data w url = Raise e ->
  e = RequestException \/ e = AttributeError.
Proof.
  unfold scrape_recipe_data, fetch.
  destruct url as [u|]; [|cbn; intros [= <-]; now left].
  destruct (w u) as [page|]; [|cbn; intros [= <-]; now left].
  cbn [mbind result_bind Py.bind]. rewrite extract_eq. unfold expected_data.
  destruct (markers_present page); [discriminate|].
  intros [= <-]. now right.
Qed.

(** [scrape_recipe_links] fails only when its request does, and
    [scrape_recipe_data] only then or when a marker is missing: asking a
    selected block for its name never raises [KeyError]. *)
Theorem extraction_exceptions (url : option str) (e : exn) :
  (scrape_recipe_links w url = Raise e ->
   e = RequestException /\ fetch w url = Raise RequestException)
  /\ (scrape_recipe_data w url = Raise e ->
      (e = RequestException /\ fetch w url = Raise RequestException)
      \/ (e = AttributeError
          /\ exists page, fetch w url = Ok page /\ markers_present page = false)).
Proof.
  assert (Hfetch : forall e', fetch w url = Raise e' -> e' = RequestException).
  { unfold fetch. intros e'. destruct url as [u|]; [destruct (w u)|];
      intros H; now inversion H. }
  unfold scrape_recipe_links, scrape_recipe_data. split.
  - destruct (fetch w url) as [page|e'] eqn:Hf; [discriminate|].
    cbn. intros [= <-]. rewrite (Hfetch e' eq_refl). now split.
  - destruct (fetch w url) as [page|e'] eqn:Hf.
    + cbn [mbind result_bind Py.bind]. rewrite extract_eq. unfold expected_data.
      destruct (markers_present page) eqn:Hm; [discriminate|].
      intros [= <-]. right. split; [reflexivity|]. now exists page.
    + cbn. intros [= <-]. left. rewrite (Hfetch e' eq_refl). now split.
Qed.

End more_extraction.

(** ** Further properties of a run *)

Section more_runs.

Context (w : web).

Lemma split_from_first (cur s t : str) (ts : list str) :
  cur <> [] ->
  split_from cur s = t :: ts ->
  exists word post,
    s = word ++ post /\ t = rev cur ++ word
    /\ existsb isspace word = false
    /\ (post = [] \/ exists c p, post = c :: p /\ isspace c = true).
Proof.
  revert cur. induction s as [|c s IH]; intros cur Hcur.
  - cbn. destruct cur as [|a cur]; [now destruct Hcur|].
    intros [= <- <-]. exists [], [].
    split; [reflexivity|]. split; [now rewrite app_nil_r|].
    split; [reflexivity|now left].
  - cbn [split_from]. destruct (isspace c) eqn:Hc.
    + destruct cur as [|a cur]; [now destruct Hcur|].
      intros [= <- _]. exists [], (c :: s).
      split; [reflexivity|]. split; [now rewrite app_nil_r|].
      split; [reflexivity|]. right. now exists c, s.
    + intros H. apply IH in H as (word & post & -> & -> & Hword & Hpost);
        [|discriminate].
      exists (c :: word), post.
      split; [reflexivity|]. split; [cbn [rev]; now rewrite <- app_assoc|].
      split; [cbn [existsb]; now rewrite Hc|exact Hpost].
Qed.

Lemma split_first (s t : str) (ts : list str) :
  split s = t :: ts ->
  exists blanks post,
    s = blanks ++ t ++ post
    /\ forallb isspace blanks = true
    /\ t <> [] /\ existsb isspace t = false
    /\ (post = [] \/ exists c p, post = c :: p /\ isspace c = true).
Proof.
  unfold split. induction s as [|c s IH]; [discriminate|].
  cbn [split_from]. destruct (isspace c) eqn:Hc.
  - intros H. apply IH in H as (blanks & post & -> & Hb & Ht).
    exists (c :: blanks), post.
    split; [reflexivity|]. split; [cbn [forallb]; now rewrite Hc|exact Ht].
  - intros H. apply split_from_first in H as (word & post & -> & -> & Hword & Hpost);
      [|discriminate].
    exists [], post.
    split; [reflexivity|]. split; [reflexivity|]. split; [discriminate|].
    split; [cbn; now rewrite Hc|exact Hpost].
Qed.

(** The Comments value of a row is the start of the comments phrase of its
    page, up to the first blank: it is never empty and holds no blank. *)
Theorem comments_is_leading_word (urls : list (option str)) (ty : option str)
    (df : DataFrame) (i : nat) (r : record) :
  scrape_recipes_info w urls ty = Ok df ->
  rows df !! i = Some r ->
  exists url d rest,
    urls !! i = Some url
    /\ scrape_recipe_data w url = Ok d
    /\ recipe_comments d = Comments r ++ rest
    /\ Comments r <> []
    /\ existsb isspace (Comments r) = false
    /\ (rest = [] \/ exists c p, rest = c :: p /\ isspace c = true).
Proof.
  intros Hdf Hr.
  destruct (scrape_recipes_info_inv w _ _ _ Hdf) as (rs & Hrs & ->).
  cbn [rows DataFrame_of] in Hr.
  destruct (Forall2_lookup_r _ _ _ _ _ Hrs Hr) as (url & Hurl & Hrow).
  destruct (row_of_fields w _ _ _ Hrow) as (d & Hd & Hc & _).
  exists url, d.
  destruct (split (recipe_comments d)) as [|t ts] eqn:Hs; [discriminate|].
  injection Hc as ->.
  destruct (split_first _ _ _ Hs) as (blanks & post & Heq & Hb & Hne & Hword & Hpost).
  exists post. split; [exact Hurl|]. split; [exact Hd|].
  split; [|now repeat split].
  destruct blanks as [|c blanks]; [exact Heq|]. exfalso.
  destruct (scrape_recipe_data_inv w _ _ Hd) as (u & page & _ & _ & _ & He).
  unfold expected_data in He. destruct (markers_present page); [|discriminate].
  injection He as <-. cbn [recipe_comments] in Heq.
  destruct (strip_trimmed
              (default [] (field_text page icon_comment (Some reviews_anchor))))
    as [Hhead _].
  rewrite Heq in Hhead. specialize (Hhead c eq_refl).
  cbn [forallb] in Hb. apply andb_true_iff in Hb as [Hb _]. congruence.
Qed.


Lemma map_const_repeat {A B} (x : B) (l : list A) :
  List.map (fun _ => x) l = repeat x (length l).
Proof. induction l as [|a l IH]; cbn; [reflexivity|now rewrite IH]. Qed.

(** The table of a run has one row per recipe-card anchor of the three
    listing pages, entree anchors first, then plat, then dessert, each in
    document order and numbered from 0; every row carries the label of its
    listing and the address of a page that was served with all its
    markers, so no row has an empty type or address. *)
Theorem table_follows_listings (pe pp pd : soup) (df : DataFrame) :
  w url_entree = Some pe -> w url_plat = Some pp -> w url_dessert = Some pd ->
  create_database w = Ok df ->
  length (rows df)
  = (length (page_anchors pe) + length (page_anchors pp)
     + length (page_anchors pd))%nat
  /\ index df = seq 0 (length (rows df))
  /\ List.map URL (rows df)
     = List.map (attr (lit "href"))
         (page_anchors pe ++ page_anchors pp ++ page_anchors pd)
  /\ List.map Recipe_Type (rows df)
     = repeat (Some (lit "entree")) (length (page_anchors pe))
       ++ repeat (Some (lit "plat")) (length (page_anchors pp))
       ++ repeat (Some (lit "dessert")) (length (page_anchors pd))
  /\ (forall r, In r (rows df) ->
        exists u page, URL r = Some u /\ w u = Some page
                       /\ markers_present page = true).
Proof.
  intros We Wp Wd Hdf.
  destruct (create_database_inv w df Hdf)
    as (le & lp & ld & re & rp & rd & He & Hp & Hd & Hre & Hrp & Hrd & ->).
  rewrite (scrape_recipe_links_eq w _ _ We) in He.
  rewrite (scrape_recipe_links_eq w _ _ Wp) in Hp.
  rewrite (scrape_recipe_links_eq w _ _ Wd) in Hd.
  injection He as <-. injection Hp as <-. injection Hd as <-.
  destruct (rows_of_batch w _ _ _ Hre) as [Ue Te].
  destruct (rows_of_batch w _ _ _ Hrp) as [Up Tp].
  destruct (rows_of_batch w _ _ _ Hrd) as [Ud Td].
  pose proof (Forall2_length_eq _ _ _ Hre) as Le.
  pose proof (Forall2_length_eq _ _ _ Hrp) as Lp.
  pose proof (Forall2_length_eq _ _ _ Hrd) as Ld.
  rewrite length_map in Le, Lp, Ld.
  cbn [rows index].
  split; [rewrite !length_app; lia|]. split; [reflexivity|].
  split; [now rewrite !map_app, Ue, Up, Ud|].
  split.
  - rewrite !map_app, Te, Tp, Td, !map_const_repeat, !length_map. reflexivity.
  - assert (Hrow : forall ty urls rs r,
               Forall2 (fun url r => row_of w ty url = Ok r) urls rs ->
               In r rs ->
               exists u page, URL r = Some u /\ w u = Some page
                              /\ markers_present page = true).
    { intros ty urls rs r H Hin.
      apply list_elem_of_In, list_elem_of_lookup in Hin as [i Hi].
      destruct (Forall2_lookup_r _ _ _ _ _ H Hi) as (url & _ & Hr).
      destruct (row_of_fields w _ _ _ Hr) as (d & Hd & _ & _ & Hu & _).
      destruct (scrape_recipe_data_inv w _ _ Hd) as (u & page & -> & Hw & Hm & _).
      now exists u, page. }
    intros r Hr. rewrite !in_app_iff in Hr.
    destruct Hr as [Hr|[Hr|Hr]]; eauto.
Qed.

(** A recipe-card anchor without [href] on a listing page stops the run:
    its [None] entry is passed to the request, which refuses it. *)
Theorem anchor_without_href_stops_run (listing : str) (page : soup) (a : node) :
  In listing [url_entree; url_plat; url_dessert] ->
  w listing = Some page ->
  In a (page_anchors page) ->
  attr (lit "href") a = None ->
  (exists links, scrape_recipe_links w (Some listing) = Ok links /\ In None links)
  /\ scrape_recipe_data w None = Raise RequestException
  /\ exists e, create_database w = Raise e.
Proof.
  intros Hlisting Hw Ha Hhref.
  pose proof (scrape_recipe_links_eq w listing page Hw) as Hlinks.
  assert (Hnone : In None (List.map (attr (lit "href")) (page_anchors page))).
  { rewrite <- Hhref. now apply in_map. }
  split; [eauto|]. split; [reflexivity|].
  destruct (create_database w) as [df|e] eqn:Hdf; [exfalso|eauto].
  destruct (create_database_inv w df Hdf)
    as (le & lp & ld & re & rp & rd & He & Hp & Hd & Hre & Hrp & Hrd & _).
  assert (Hrow : forall ty urls rs,
             Forall2 (fun url r => row_of w ty url = Ok r) urls rs ->
             ~ In None urls).
  { intros ty urls rs H Hin.
    apply list_elem_of_In, list_elem_of_lookup in Hin as [i Hi].
    destruct (Forall2_lookup_l _ _ _ _ _ H Hi) as (r & _ & Hr).
    discriminate. }
  cbn [In] in Hlisting. destruct Hlisting as [ <- | [ <- | [ <- | Hf ] ] ]; [| | |destruct Hf].
  - rewrite Hlinks in He. injection He as <-. exact (Hrow _ _ _ Hre Hnone).
  - rewrite Hlinks in Hp. injection Hp as <-. exact (Hrow _ _ _ Hrp Hnone).
  - rewrite Hlinks in Hd. injection Hd as <-. exact (Hrow _ _ _ Hrd Hnone).
Qed.

Lemma recipes_loop_exceptions urls ty acc e :
  recipes_loop w urls ty acc = Raise e ->
  e = AttributeError \/ e = IndexError \/ e = RequestException.
Proof.
  revert acc. induction urls as [|url urls IH]; intros acc; [discriminate|].
  cbn [recipes_loop].
  destruct (scrape_recipe_data w url) as [d|e'] eqn:Hd.
  - cbn [mbind result_bind Py.bind].
    destruct (split (recipe_comments d)) as [|t ts].
    + cbn. intros [= <-]. right. now left.
    + cbn [first mbind result_bind Py.bind]. apply IH.
  - cbn. intros [= <-].
    destruct (scrape_recipe_data_raises w url e' Hd) as [ -> | -> ]; tauto.
Qed.

End more_runs.

Section more_failures.

Context (w : web).

Lemma create_database_exceptions (e : exn) :
  create_database w = Raise e ->
  e = AttributeError \/ e = IndexError \/ e = RequestException.
Proof.
  assert (Hlinks : forall url e', scrape_recipe_links w url = Raise e' ->
                                  e' = RequestException).
  { intros url e'. unfold scrape_recipe_links, fetch.
    destruct url as [u|]; [destruct (w u)|]; cbn; intros H; now inversion H. }
  assert (Hbatch : forall urls ty e', scrape_recipes_info w urls ty = Raise e' ->
             e' = AttributeError \/ e' = IndexError \/ e' = RequestException).
  { intros urls ty e'. unfold scrape_recipes_info.
    destruct (recipes_loop w urls ty []) eqn:Hl; [discriminate|].
    cbn. intros [= <-]. exact (recipes_loop_exceptions w _ _ _ _ Hl). }
  unfold create_database.
  destruct (scrape_recipe_links w (Some url_entree)) as [le|e1] eqn:He;
    [|cbn; intros [= <-]; right; right; eauto].
  cbn [mbind result_bind Py.bind].
  destruct (scrape_recipes_info w le _) as [dfe|e1] eqn:Hdfe;
    [|cbn; intros [= <-]; eauto].
  cbn [mbind result_bind Py.bind].
  destruct (scrape_recipe_links w (Some url_plat)) as [lp|e1] eqn:Hp;
    [|cbn; intros [= <-]; right; right; eauto].
  cbn [mbind result_bind Py.bind].
  destruct (scrape_recipes_info w lp _) as [dfp|e1] eqn:Hdfp;
    [|cbn; intros [= <-]; eauto].
  cbn [mbind result_bind Py.bind].
  destruct (scrape_recipe_links w (Some url_dessert)) as [ld|e1] eqn:Hd;
    [|cbn; intros [= <-]; right; right; eauto].
  cbn [mbind result_bind Py.bind].
  destruct (scrape_recipes_info w ld _) as [dfd|e1] eqn:Hdfd;
    [|cbn; intros [= <-]; eauto].
  cbn. discriminate.
Qed.

(** A run that fails leaves every file as it was, and fails with an
    [AttributeError], an [IndexError] or a request error: concatenating
    its three batches never raises, nor does reading a block's name. *)
Theorem failed_run_writes_nothing (fs fs' : gmap str csv) (e : exn) :
  main w fs = (Raise e, fs') ->
  fs' = fs
  /\ create_database w = Raise e
  /\ (e = AttributeError \/ e = IndexError \/ e = RequestException).
Proof.
  unfold main. destruct (create_database w) as [df|e'] eqn:Hdf; [discriminate|].
  intros [= <- <-]. split; [reflexivity|]. split; [reflexivity|].
  exact (create_database_exceptions e' Hdf).
Qed.

End more_failures.

(** ** The further properties on the sample pages *)

Section more_samples.

Import Sample.

Lemma served_yields (w : web) (url : str) (page : soup) :
  w url = Some page ->
  is_Ok (extract page) = true ->
  split (recipe_comments (data_of page)) <> [] ->
  yields_row w (Some url).
Proof.
  intros Hw Hok Hs. exists (data_of page). split; [|exact Hs].
  unfold scrape_recipe_data, fetch, data_of. rewrite Hw. cbn.
  destruct (extract page); [reflexivity|discriminate].
Qed.

Lemma batch_rows_follow_links_witness :
  exists df,
    scrape_recipes_info site [Some (recette "e2"); Some (recette "e1")]
      (Some (lit "entree")) = Ok df
    /\ length (rows df) = 2%nat
    /\ index df = [0; 1]%nat
    /\ List.map URL (rows df) = [Some (recette "e2"); Some (recette "e1")]
    /\ (forall r, In r (rows df) -> Recipe_Type r = Some (lit "entree"))
    /\ columns df = record_keys.
Proof.
  destruct (scrape_recipes_info site [Some (recette "e2"); Some (recette "e1")]
              (Some (lit "entree"))) as [df|e] eqn:Hdf;
    [|vm_compute in Hdf; discriminate].
  exists df. split; [reflexivity|].
  exact (batch_rows_follow_links site _ _ df Hdf).
Defined.

Lemma batch_first_failure_witness :
  Forall (yields_row broken_site) [Some (recette "d1")]
  /\ scrape_recipe_data broken_site (Some (recette "d2")) = Raise AttributeError
  /\ scrape_recipes_info broken_site
       ([Some (recette "d1")] ++ Some (recette "d2") :: [Some (recette "d3")])
       (Some (lit "dessert")) = Raise AttributeError
  /\ Forall (yields_row blank_site) [Some (recette "tarte")]
  /\ scrape_recipe_data blank_site (Some (recette "soupe"))
     = Ok (data_of no_comment_text)
  /\ split (recipe_comments (data_of no_comment_text)) = []
  /\ scrape_recipes_info blank_site
       ([Some (recette "tarte")] ++ Some (recette "soupe") :: [None])
       (Some (lit "plat")) = Raise IndexError.
Proof.
  assert (H1 : Forall (yields_row broken_site) [Some (recette "d1")]).
  { repeat constructor.
    apply (served_yields broken_site (recette "d1") tarte);
      [reflexivity|reflexivity|vm_compute; discriminate]. }
  assert (H2 : scrape_recipe_data broken_site (Some (recette "d2"))
               = Raise AttributeError) by (vm_compute; reflexivity).
  assert (H3 : Forall (yields_row blank_site) [Some (recette "tarte")]).
  { repeat constructor.
    apply (served_yields blank_site (recette "tarte") tarte);
      [reflexivity|reflexivity|vm_compute; discriminate]. }
  assert (H4 : scrape_recipe_data blank_site (Some (recette "soupe"))
               = Ok (data_of no_comment_text)) by (vm_compute; reflexivity).
  assert (H5 : split (recipe_comments (data_of no_comment_text)) = [])
    by (vm_compute; reflexivity).
  split; [exact H1|]. split; [exact H2|].
  split; [exact (proj1 (batch_first_failure broken_site _ [Some (recette "d3")]
                          _ (Some (lit "dessert")) H1) _ H2)|].
  split; [exact H3|]. split; [exact H4|]. split; [exact H5|].
  exact (proj2 (batch_first_failure blank_site _ [None] _ (Some (lit "plat")) H3)
           _ H4 H5).
Defined.

Lemma recipe_type_label_witness :
  recipe_type url_plat = Some (lit "plat")
  /\ ((lit "plat" = lit "entree" /\ url_plat = url_entree)
      \/ (lit "plat" = lit "plat" /\ url_plat = url_plat)
      \/ (lit "plat" = lit "dessert" /\ url_plat = url_dessert)).
Proof.
  split; [reflexivity|].
  exact (recipe_type_label url_plat (lit "plat") eq_refl).
Defined.

Lemma first_match_is_read_witness :
  odd_site (recette "gratin") = Some two_headings
  /\ scrape_recipe_data odd_site (Some (recette "gratin")) = Ok (data_of two_headings)
  /\ soup_descendants two_headings = before_heading ++ heading :: after_heading
  /\ Forall (fun m => search_tag h1 m = false) before_heading
  /\ search_tag h1 heading = true
  /\ recipe_name (data_of two_headings) = strip (text (Element heading after_heading))
  /\ recipe_name (data_of two_headings) = lit "Gratin"
  /\ soup_descendants two_headings = before_rating ++ rating :: after_rating
  /\ Forall (fun m => search_tag rating_text m = false) before_rating
  /\ search_tag rating_text rating = true
  /\ recipe_rate (data_of two_headings) = strip (text (Element rating after_rating)).
Proof.
  assert (Hw : odd_site (recette "gratin") = Some two_headings) by reflexivity.
  assert (Hd : scrape_recipe_data odd_site (Some (recette "gratin"))
               = Ok (data_of two_headings)) by (vm_compute; reflexivity).
  assert (H1 : soup_descendants two_headings
               = before_heading ++ heading :: after_heading)
    by (vm_compute; reflexivity).
  assert (H2 : Forall (fun m => search_tag h1 m = false) before_heading)
    by (repeat constructor).
  assert (H3 : search_tag h1 heading = true) by (vm_compute; reflexivity).
  assert (H4 : soup_descendants two_headings
               = before_rating ++ rating :: after_rating)
    by (vm_compute; reflexivity).
  assert (H5 : Forall (fun m => search_tag rating_text m = false) before_rating)
    by (repeat constructor).
  assert (H6 : search_tag rating_text rating = true) by (vm_compute; reflexivity).
  split; [exact Hw|]. split; [exact Hd|]. split; [exact H1|].
  split; [exact H2|]. split; [exact H3|].
  split; [exact (proj1 (first_match_is_read odd_site _ _ _ _ _ _ Hw Hd H1) H2 H3)|].
  split; [vm_compute; reflexivity|]. split; [exact H4|].
  split; [exact H5|]. split; [exact H6|].
  exact (proj2 (first_match_is_read odd_site _ _ _ _ _ _ Hw Hd H4) H5 H6).
Defined.

Lemma count_is_sought_past_the_card_witness :
  odd_site (recette "pain") = Some borrowing
  /\ core_markers_present borrowing = true
  /\ ingredient_blocks borrowing !! 0%nat = Some borrowing_first
  /\ ingredient_blocks borrowing !! 1%nat = Some borrowing_second
  /\ next_elements borrowing_first
     = borrowing_between ++ el borrowing_second :: next_elements borrowing_second
  /\ Forall (fun n => search_tag span_count n = false) borrowing_between
  /\ block_name borrowing_first = Some (lit "sel")
  /\ exists d q,
      scrape_recipe_data odd_site (Some (recette "pain")) = Ok d
      /\ block_quantity borrowing_second = Some q
      /\ ingredients_dict d !! lit "sel" = Some q
      /\ q = lit "500".
Proof.
  assert (Hw : odd_site (recette "pain") = Some borrowing) by reflexivity.
  assert (Hcore : core_markers_present borrowing = true)
    by (vm_compute; reflexivity).
  assert (Hblocks : ingredient_blocks borrowing
                    = [borrowing_first; borrowing_second])
    by (vm_compute; reflexivity).
  assert (H0 : ingredient_blocks borrowing !! 0%nat = Some borrowing_first)
    by (now rewrite Hblocks).
  assert (H1 : ingredient_blocks borrowing !! 1%nat = Some borrowing_second)
    by (now rewrite Hblocks).
  assert (Hnext : next_elements borrowing_first
                  = borrowing_between ++ el borrowing_second
                                         :: next_elements borrowing_second)
    by (vm_compute; reflexivity).
  assert (Hbetween : Forall (fun n => search_tag span_count n = false)
                       borrowing_between)
    by (repeat constructor).
  assert (Hname : block_name borrowing_first = Some (lit "sel"))
    by (vm_compute; reflexivity).
  assert (Hothers : forall j c, j <> 0%nat ->
                      ingredient_blocks borrowing !! j = Some c ->
                      is_Some (find_next c span_count)).
  { intros j c Hj. rewrite Hblocks.
    destruct j as [|[|j]]; [now destruct Hj| |discriminate].
    intros [= <-]. vm_compute. eauto. }
  assert (Hlast : forall j c, (0 < j)%nat ->
                    ingredient_blocks borrowing !! j = Some c ->
                    block_name c <> Some (lit "sel")).
  { intros j c Hj. rewrite Hblocks.
    destruct j as [|[|j]]; [lia| |discriminate].
    intros [= <-]. vm_compute. discriminate. }
  destruct (count_is_sought_past_the_card odd_site (recette "pain") borrowing 0
              borrowing_first borrowing_second borrowing_between (lit "sel")
              Hw Hcore H0 H1 Hnext Hbetween Hname Hothers Hlast)
    as (d & q & Hd & Hq & Hk).
  split; [exact Hw|]. split; [exact Hcore|]. split; [exact H0|].
  split; [exact H1|]. split; [exact Hnext|]. split; [exact Hbetween|].
  split; [exact Hname|].
  exists d, q. split; [exact Hd|]. split; [exact Hq|]. split; [exact Hk|].
  assert (Hq' : block_quantity borrowing_second = Some (lit "500"))
    by (vm_compute; reflexivity).
  congruence.
Defined.

(** On the page [borrowing] the salt, which shows no quantity, is stored
    with the 500 of the flour. *)
Example borrowing_ingredients :
  (fun d => (ingredients_dict d !! lit "sel", ingredients_dict d !! lit "farine"))
    <$> scrape_recipe_data odd_site (Some (recette "pain"))
  = Ok (Some (lit "500"), Some (lit "500")).
Proof. vm_compute. reflexivity. Qed.

Lemma ingredients_are_the_blocks_witness :
  site (recette "e1") = Some tarte
  /\ scrape_recipe_data site (Some (recette "e1")) = Ok (data_of tarte)
  /\ (forall k, is_Some (ingredients_dict (data_of tarte) !! k)
                <-> exists b, In b (ingredient_blocks tarte) /\ block_name b = Some k)
  /\ (forall k q, ingredients_dict (data_of tarte) !! k = Some q ->
        trimmed q
        /\ exists b, In b (ingredient_blocks tarte) /\ block_name b = Some k
                     /\ block_quantity b = Some q)
  /\ trimmed (recipe_comments (data_of tarte)).
Proof.
  assert (Hw : site (recette "e1") = Some tarte) by reflexivity.
  assert (Hd : scrape_recipe_data site (Some (recette "e1")) = Ok (data_of tarte))
    by (vm_compute; reflexivity).
  split; [exact Hw|]. split; [exact Hd|].
  exact (ingredients_are_the_blocks site _ _ _ Hw Hd).
Defined.

Lemma extraction_exceptions_witness :
  scrape_recipe_links site None = Raise RequestException
  /\ fetch site None = Raise RequestException
  /\ scrape_recipe_data broken_site (Some (recette "d2")) = Raise AttributeError
  /\ exists page, fetch broken_site (Some (recette "d2")) = Ok page
                  /\ markers_present page = false.
Proof.
  assert (H1 : scrape_recipe_links site None = Raise RequestException)
    by reflexivity.
  assert (H2 : scrape_recipe_data broken_site (Some (recette "d2"))
               = Raise AttributeError) by (vm_compute; reflexivity).
  split; [exact H1|].
  split; [exact (proj2 (proj1 (extraction_exceptions site None RequestException) H1))|].
  split; [exact H2|].
  destruct (proj2 (extraction_exceptions broken_site (Some (recette "d2"))
                     AttributeError) H2) as [[He _]|[_ Hpage]];
    [discriminate|exact Hpage].
Defined.

Lemma comments_is_leading_word_witness :
  exists df r url d rest,
    scrape_recipes_info site [Some (recette "e1")] (Some (lit "entree")) = Ok df
    /\ rows df !! 0%nat = Some r
    /\ [Some (recette "e1")] !! 0%nat = Some url
    /\ scrape_recipe_data site url = Ok d
    /\ recipe_comments d = Comments r ++ rest
    /\ Comments r <> []
    /\ existsb isspace (Comments r) = false
    /\ (rest = [] \/ exists c p, rest = c :: p /\ isspace c = true).
Proof.
  destruct (scrape_recipes_info site [Some (recette "e1")] (Some (lit "entree")))
    as [df|e] eqn:Hdf; [|vm_compute in Hdf; discriminate].
  assert (Hrow : is_Some (rows df !! 0%nat)).
  { apply lookup_lt_is_Some.
    destruct (scrape_recipes_info_inv site _ _ _ Hdf) as (rs & Hrs & ->).
    cbn [rows DataFrame_of]. rewrite <- (Forall2_length_eq _ _ _ Hrs).
    cbn. lia. }
  destruct Hrow as [r Hr].
  destruct (comments_is_leading_word site _ _ df 0 r Hdf Hr)
    as (url & d & rest & H).
  exists df, r, url, d, rest. split; [reflexivity|]. split; [exact Hr|exact H].
Defined.

Lemma table_follows_listings_witness :
  site url_entree = Some (listing [Some "e1"; Some "e2"]%string)
  /\ site url_plat = Some (listing [Some "p1"]%string)
  /\ site url_dessert = Some (listing [Some "d1"; Some "d2"; Some "d3"]%string)
  /\ exists df,
      create_database site = Ok df
      /\ length (rows df) = 6%nat
      /\ index df = seq 0 (length (rows df))
      /\ List.map URL (rows df)
         = List.map (fun s => Some (recette s))
             ["e1"; "e2"; "p1"; "d1"; "d2"; "d3"]%string
      /\ List.map Recipe_Type (rows df)
         = repeat (Some (lit "entree")) 2 ++ repeat (Some (lit "plat")) 1
           ++ repeat (Some (lit "dessert")) 3
      /\ (forall r, In r (rows df) ->
            exists u page, URL r = Some u /\ site u = Some page
                           /\ markers_present page = true).
Proof.
  split; [reflexivity|]. split; [reflexivity|]. split; [reflexivity|].
  destruct (create_database site) as [df|e] eqn:Hdf;
    [|vm_compute in Hdf; discriminate].
  destruct (table_follows_listings site _ _ _ df eq_refl eq_refl eq_refl Hdf)
    as (Hlen & Hindex & Hurl & Htype & Hserved).
  exists df. split; [reflexivity|]. split; [exact Hlen|].
  split; [exact Hindex|]. split; [exact Hurl|].
  split; [exact Htype|exact Hserved].
Defined.

Lemma anchor_without_href_stops_run_witness :
  In url_entree [url_entree; url_plat; url_dessert]
  /\ holed_run_site url_entree = Some (listing [Some "a"; None; Some "c"]%string)
  /\ In holed_anchor (page_anchors (listing [Some "a"; None; Some "c"]%string))
  /\ attr (lit "href") holed_anchor = None
  /\ (exists links, scrape_recipe_links holed_run_site (Some url_entree) = Ok links
                    /\ In None links)
  /\ scrape_recipe_data holed_run_site None = Raise RequestException
  /\ (exists e, create_database holed_run_site = Raise e)
  /\ yields_row holed_run_site (Some (recette "a"))
  /\ yields_row holed_run_site (Some (recette "c"))
  /\ create_database holed_run_site = Raise RequestException
  /\ is_Ok (create_database mended_run_site) = true.
Proof.
  assert (H1 : In url_entree [url_entree; url_plat; url_dessert]) by now left.
  assert (H2 : holed_run_site url_entree
               = Some (listing [Some "a"; None; Some "c"]%string)) by reflexivity.
  assert (H3 : In holed_anchor
                 (page_anchors (listing [Some "a"; None; Some "c"]%string))).
  { vm_compute. right. now left. }
  assert (H4 : attr (lit "href") holed_anchor = None) by (vm_compute; reflexivity).
  destruct (anchor_without_href_stops_run holed_run_site _ _ _ H1 H2 H3 H4)
    as (Hlinks & Hnone & Hrun).
  split; [exact H1|]. split; [exact H2|]. split; [exact H3|]. split; [exact H4|].
  split; [exact Hlinks|]. split; [exact Hnone|]. split; [exact Hrun|].
  split.
  { apply (served_yields holed_run_site (recette "a") tarte);
      [reflexivity|reflexivity|vm_compute; discriminate]. }
  split.
  { apply (served_yields holed_run_site (recette "c") no_cards);
      [reflexivity|reflexivity|vm_compute; discriminate]. }
  split; vm_compute; reflexivity.
Defined.

Lemma failed_run_writes_nothing_witness :
  let fs : gmap str csv := {[ output_path := stale ]} in
  main broken_site fs = (Raise AttributeError, fs)
  /\ fs = fs
  /\ create_database broken_site = Raise AttributeError
  /\ (AttributeError = AttributeError \/ AttributeError = IndexError
      \/ AttributeError = RequestException).
Proof.
  intros fs.
  assert (Hrun : main broken_site fs = (Raise AttributeError, fs)).
  { unfold main.
    destruct (create_database broken_site) as [df|e] eqn:Hdf;
      vm_compute in Hdf; [discriminate|].
    now injection Hdf as <-. }
  split; [exact Hrun|].
  exact (failed_run_writes_nothing broken_site fs fs AttributeError Hrun).
Defined.

End more_samples.
